(** * topology_connect: handshake engine and firmware provisioning workflow

    A shallow embedding of [lib/topology_connect/shell.py] and
    [lib/topology_connect/nodes/openswitch.py].

    The pexpect channel and the [topology.platforms.shell] base classes are
    external to the repository.  They appear here only at their interface:
    every call the source makes on them is recorded in a log, and every
    blocking wait takes its answer from a script of responses that stands for
    the remote device. *)

From Stdlib Require Import String Ascii List ZArith Bool Lia DecimalString.
Import ListNotations.
Open Scope string_scope.

(** ** Python string operations used by the source *)

Module PyStr.

(** [needle in hay] *)
Fixpoint contains (needle hay : string) : bool :=
  if String.prefix needle hay then true
  else match hay with
       | EmptyString => false
       | String _ rest => contains needle rest
       end.

(** [s.rfind(c)], scanning from index [i] with [acc] the last hit so far *)
Fixpoint rfind_from (c : ascii) (s : string) (i acc : Z) : Z :=
  match s with
  | EmptyString => acc
  | String a rest =>
      rfind_from c rest (i + 1) (if Ascii.eqb a c then i else acc)
  end.

Definition rfind (c : ascii) (s : string) : Z := rfind_from c s 0 (-1).

(** [s[n:]] for [0 <= n] *)
Fixpoint drop (n : nat) (s : string) : string :=
  match n, s with
  | O, _ => s
  | S _, EmptyString => EmptyString
  | S k, String _ rest => drop k rest
  end.

Definition slice_from (n : Z) (s : string) : string := drop (Z.to_nat n) s.

(** [s[s.rfind(c) + 1 :]] *)
Definition after_last (c : ascii) (s : string) : string :=
  slice_from (rfind c s + 1) s.

(** [sep.join(xs)] *)
Fixpoint join (sep : string) (xs : list string) : string :=
  match xs with
  | [] => ""
  | [x] => x
  | x :: rest => x ++ sep ++ join sep rest
  end.

(** ['{}'.format(n)] for an integer *)
Definition of_int (n : Z) : string := NilZero.string_of_int (Z.to_int n).

(** ['{}'.format(x)] for a value that may be [None] *)
Definition of_opt (x : option string) : string :=
  match x with
  | Some s => s
  | None => "None"
  end.

Definition CR : ascii := Ascii.ascii_of_nat 13.
Definition LF : ascii := Ascii.ascii_of_nat 10.
Definition ESC : ascii := Ascii.ascii_of_nat 27.

(** The literal ['\n\r'] *)
Definition LFCR : string := String LF (String CR "").

(** The literal ['\x1b[B'] (arrow down) *)
Definition ARROW_DOWN : string := String ESC "[B".

End PyStr.

(** ** Transport command builder ([SshMixin], [TelnetMixin]) *)

Module Transport.

Record SshMixin := {
  _ssh_user : string;
  _ssh_hostname : string;
  _ssh_port : Z;
  _options : list string;
  _identity_file : option string
}.

(** Truth value of [self._identity_file]: [None] and [''] are false. *)
Definition truthy (x : option string) : bool :=
  match x with
  | None => false
  | Some "" => false
  | Some _ => true
  end.

Definition ssh_options (self : SshMixin) : string :=
  match _options self with
  | [] => ""
  | _ :: _ => " -o " ++ PyStr.join " -o " (_options self)
  end.

Definition ssh_get_connect_command (self : SshMixin) : string :=
  let options := ssh_options self in
  let options :=
    if truthy (_identity_file self)
    then " -i " ++ PyStr.of_opt (_identity_file self) ++ options
    else options in
  "ssh " ++ _ssh_user self ++ "@" ++ _ssh_hostname self ++ " "
    ++ "-p " ++ PyStr.of_int (_ssh_port self) ++ options.

Record TelnetMixin := {
  _telnet_hostname : string;
  _telnet_port : Z
}.

Definition telnet_get_connect_command (self : TelnetMixin) : string :=
  "telnet " ++ _telnet_hostname self ++ " " ++ PyStr.of_int (_telnet_port self).

End Transport.

(** ** The interactive channel, as the source sees it *)

Module Chan.

(** The two sessions the provisioning workflow drives. *)
Inductive shell_id := Serial | Vtysh.

(** Python exceptions the modelled code can raise or let through. *)
Inductive exn :=
| NameError (name : string)
| AttributeError (name : string)
| TypeError
| AssertionError (msg : string)
| ChannelError           (* a wait raised: pexpect TIMEOUT or EOF *)
| UnicodeDecodeError.    (* [spawn.before.decode(...)] failed *)

(** What the remote end answers to one blocking wait.  [before] is the
    decoded text of [spawn.before]; for a command it is the text
    [get_response] hands back.  [MatchGarbled] and [RaiseGarbled] are the
    same two outcomes when the bytes of [spawn.before] do not decode in the
    shell's encoding. *)
Inductive response :=
| Match (index : nat) (before : string)
| Raise (before : string)
| MatchGarbled (index : nat)
| RaiseGarbled.

(** Calls made on the external collaborators, in the order made. *)
Inductive action :=
| AConnect (sh : shell_id)
| ADisconnect (sh : shell_id)
| ACommand (sh : shell_id) (command : string) (newline : bool)
           (matches : list string) (timeout : Z)
| ASend (s : string)
| ASendline (s : option string)
| ASendcontrol (c : string)
| AExpect (patterns : list string) (timeout : Z)
| AClose
| ASleep (seconds : Z)
| ACall (command : string).

Record world := {
  image_load_status : list string;  (* the module-level list *)
  script : list response;           (* answers still to come *)
  log : list action;
  serial_prompt : string;           (* serial._prompt *)
  serial_timeout : Z;               (* serial._timeout *)
  vtysh_prompt : string;            (* vtysh._prompt *)
  vtysh_timeout : Z;                (* vtysh._timeout *)
  reboot_status : Z                 (* exit status of the reboot command *)
}.

(** [Blocked]: the script is exhausted, the program sits in a wait. *)
Inductive result (A : Type) :=
| Ok (a : A)
| Exc (e : exn)
| Blocked.
Arguments Ok {A} a.
Arguments Exc {A} e.
Arguments Blocked {A}.

Definition M (A : Type) : Type := world -> result A * world.

Definition ret {A} (a : A) : M A := fun w => (Ok a, w).

Definition bind {A B} (m : M A) (k : A -> M B) : M B :=
  fun w =>
    match m w with
    | (Ok a, w') => k a w'
    | (Exc e, w') => (Exc e, w')
    | (Blocked, w') => (Blocked, w')
    end.

Definition raise {A} (e : exn) : M A := fun w => (Exc e, w).

(** [try: m  except: h] (a bare [except] catches every exception) *)
Definition try_except {A} (m : M A) (h : exn -> M A) : M A :=
  fun w =>
    match m w with
    | (Exc e, w') => h e w'
    | r => r
    end.

Definition set_status (l : list string) (w : world) : world :=
  {| image_load_status := l; script := script w; log := log w;
     serial_prompt := serial_prompt w; serial_timeout := serial_timeout w;
     vtysh_prompt := vtysh_prompt w; vtysh_timeout := vtysh_timeout w;
     reboot_status := reboot_status w |}.

Definition set_script (s : list response) (w : world) : world :=
  {| image_load_status := image_load_status w; script := s; log := log w;
     serial_prompt := serial_prompt w; serial_timeout := serial_timeout w;
     vtysh_prompt := vtysh_prompt w; vtysh_timeout := vtysh_timeout w;
     reboot_status := reboot_status w |}.

Definition set_log (l : list action) (w : world) : world :=
  {| image_load_status := image_load_status w; script := script w; log := l;
     serial_prompt := serial_prompt w; serial_timeout := serial_timeout w;
     vtysh_prompt := vtysh_prompt w; vtysh_timeout := vtysh_timeout w;
     reboot_status := reboot_status w |}.

Definition set_prompt (sh : shell_id) (p : string) (w : world) : world :=
  {| image_load_status := image_load_status w; script := script w;
     log := log w;
     serial_prompt := match sh with Serial => p | Vtysh => serial_prompt w end;
     serial_timeout := serial_timeout w;
     vtysh_prompt := match sh with Vtysh => p | Serial => vtysh_prompt w end;
     vtysh_timeout := vtysh_timeout w;
     reboot_status := reboot_status w |}.

Definition set_timeout (sh : shell_id) (t : Z) (w : world) : world :=
  {| image_load_status := image_load_status w; script := script w;
     log := log w;
     serial_prompt := serial_prompt w;
     serial_timeout := match sh with Serial => t | Vtysh => serial_timeout w end;
     vtysh_prompt := vtysh_prompt w;
     vtysh_timeout := match sh with Vtysh => t | Serial => vtysh_timeout w end;
     reboot_status := reboot_status w |}.

Definition prompt_of (sh : shell_id) (w : world) : string :=
  match sh with Serial => serial_prompt w | Vtysh => vtysh_prompt w end.

Definition timeout_of (sh : shell_id) (w : world) : Z :=
  match sh with Serial => serial_timeout w | Vtysh => vtysh_timeout w end.

Definition record (a : action) : M unit :=
  fun w => (Ok tt, set_log (log w ++ [a]) w).

(** Take the next answer of the remote end. *)
Definition await : M response :=
  fun w =>
    match script w with
    | [] => (Blocked, w)
    | r :: rest => (Ok r, set_script rest w)
    end.

Definition get_prompt (sh : shell_id) : M string :=
  fun w => (Ok (prompt_of sh w), w).
Definition put_prompt (sh : shell_id) (p : string) : M unit :=
  fun w => (Ok tt, set_prompt sh p w).
Definition get_timeout (sh : shell_id) : M Z :=
  fun w => (Ok (timeout_of sh w), w).
Definition put_timeout (sh : shell_id) (t : Z) : M unit :=
  fun w => (Ok tt, set_timeout sh t w).

End Chan.

Import Chan.

Declare Scope py_scope.
Delimit Scope py_scope with py.
Notation "x <- m ;; k" := (bind m (fun x => k))
  (at level 61, m at next level, right associativity) : py_scope.
Notation "m ;; k" := (bind m (fun _ => k))
  (at level 61, right associativity) : py_scope.
Open Scope py_scope.

(** ** Interface of the external shell classes *)

Module Api.

(** [spawn.expect(patterns, timeout=...)]: the matched index, or the
    exception of the wait. *)
Definition expect (patterns : list string) (timeout : Z) : M nat :=
  record (AExpect patterns timeout) ;;
  r <- await ;;
  match r with
  | Match index _ | MatchGarbled index => ret index
  | Raise _ | RaiseGarbled => raise ChannelError
  end.

Definition send (s : string) : M unit := record (ASend s).

(** [spawn.sendline(s)]; pexpect raises on [None] (a [TypeError] or an
    [AttributeError], depending on its version) before anything is
    written. *)
Definition sendline (s : option string) : M unit :=
  match s with
  | Some _ => record (ASendline s)
  | None => raise TypeError
  end.
Definition sendcontrol (c : string) : M unit := record (ASendcontrol c).
Definition close : M unit := record AClose.
Definition sleep (seconds : Z) : M unit := record (ASleep seconds).

(** [shell.connect()] *)
Definition connect (sh : shell_id) : M unit :=
  record (AConnect sh) ;;
  r <- await ;;
  match r with
  | Match _ _ | MatchGarbled _ => ret tt
  | Raise _ | RaiseGarbled => raise ChannelError
  end.

(** [shell.disconnect()] of the base class *)
Definition disconnect (sh : shell_id) : M unit := record (ADisconnect sh).

(** [shell.send_command(command, matches=..., timeout=..., newline=...)] *)
Definition send_command_matching (sh : shell_id) (command : string)
    (matches : list string) (timeout : Z) (newline : bool) : M nat :=
  record (ACommand sh command newline matches timeout) ;;
  r <- await ;;
  match r with
  | Match index _ | MatchGarbled index => ret index
  | Raise _ | RaiseGarbled => raise ChannelError
  end.

(** [shell.send_command(command, newline=...)]: waits for the current
    prompt with the current timeout. *)
Definition send_command (sh : shell_id) (command : string)
    (newline : bool) : M unit :=
  p <- get_prompt sh ;;
  t <- get_timeout sh ;;
  _ <- send_command_matching sh command [p] t newline ;;
  ret tt.

(** [shell(command)] for a shell with the [get_response] of the base class:
    send the command, wait for the prompt, return the decoded response
    text.  Output that does not decode raises. *)
Definition call_shell (sh : shell_id) (command : string) : M string :=
  p <- get_prompt sh ;;
  t <- get_timeout sh ;;
  record (ACommand sh command true [p] t) ;;
  r <- await ;;
  match r with
  | Match _ out => ret out
  | MatchGarbled _ => raise UnicodeDecodeError
  | Raise _ | RaiseGarbled => raise ChannelError
  end.

(** What [OpenswitchSerialShell.get_response] hands back: the decoded text,
    or [spawn.before] as it is, a [bytes] object, when decoding raised. *)
Inductive reply :=
| Text (s : string)
| RawBytes.

(** [serial(command)]: as [call_shell], with the [get_response] of
    [OpenswitchSerialShell] (shell.py 411-423). *)
Definition call_serial (command : string) : M reply :=
  p <- get_prompt Serial ;;
  t <- get_timeout Serial ;;
  record (ACommand Serial command true [p] t) ;;
  r <- await ;;
  match r with
  | Match _ out => ret (Text out)
  | MatchGarbled _ => ret RawBytes
  | Raise _ | RaiseGarbled => raise ChannelError
  end.

(** ['0' == rc]-style comparison of a text with a reply: a [bytes] object
    is never equal to a text. *)
Definition reply_eqb (s : string) (r : reply) : bool :=
  match r with
  | Text t => String.eqb s t
  | RawBytes => false
  end.

(** [needle in out]: a text looked for in a [bytes] object is a
    [TypeError]. *)
Definition reply_contains (needle : string) (out : reply) : M bool :=
  match out with
  | Text t => ret (PyStr.contains needle t)
  | RawBytes => raise TypeError
  end.

(** [subprocess.call(command)] *)
Definition call (command : string) : M Z :=
  record (ACall command) ;;
  fun w => (Ok (reboot_status w), w).

End Api.

(** ** shell.py: the handshake engine and the serial shell *)

Module Shell.
Import Api.

(** The attributes [_setup_shell] reads, with the two hooks a subclass may
    override. *)
Record ConnectPExpectShell := {
  _connect_user : option string;
  _connect_password : option string;
  _connect_initial_command : option string;
  _user_match : string;
  _initial_prompt : string;
  _password_match : string;
  _timeout : Z;
  _pre_setup_shell : M unit;
  _post_setup_shell : M unit
}.

(** shell.py 59-80: the race done when a user was declared. *)
Definition user_race (self : ConnectPExpectShell) : M unit :=
  match _connect_user self with
  | Some user =>
      index <- expect [_user_match self; _initial_prompt self;
                       _password_match self] (_timeout self) ;;
      if Nat.eqb 0 index then sendline (Some user)
      else if Nat.eqb 1 index then send PyStr.LFCR
      else if Nat.eqb 2 index then sendline (_connect_password self)
      else ret tt
  | None => ret tt
  end.

(** shell.py 83-91: the race done when a password was declared. *)
Definition password_race (self : ConnectPExpectShell) : M unit :=
  match _connect_password self with
  | Some password =>
      index <- expect [_password_match self; _initial_prompt self]
                      (_timeout self) ;;
      if Nat.eqb 0 index then sendline (Some password)
      else send PyStr.LFCR
  | None => ret tt
  end.

(** shell.py 97-101 *)
Definition initial_command (self : ConnectPExpectShell) : M unit :=
  match _connect_initial_command self with
  | Some command =>
      _ <- expect [_initial_prompt self] (_timeout self) ;;
      sendline (Some command)
  | None => ret tt
  end.

(** [ConnectPExpectShell._setup_shell] *)
Definition _setup_shell (self : ConnectPExpectShell) : M unit :=
  _pre_setup_shell self ;;
  user_race self ;;
  password_race self ;;
  _post_setup_shell self ;;
  initial_command self.

(** The hooks of [ConnectPExpectShell] itself do nothing. *)
Definition no_hook : M unit := ret tt.

(** [OpenswitchVtyShell._post_setup_shell] returns at once. *)
Definition vtysh_post_setup_shell : M unit := ret tt.

(** The attributes of [OpenswitchSerialShell] its own methods read. *)
Record OpenswitchSerialShell := {
  _serial_user_match : string;
  _bootup_timeout : Z;
  _pre_connect_timeout : Z;
  _serial_closing_commands : list string;
  _onie_prompt : string;
  _serial_prompt : string;
  _vtysh_prompt : string
}.

(** [OpenswitchSerialShell._pre_setup_shell] *)
Definition serial_pre_setup_shell (self : OpenswitchSerialShell) : M unit :=
  sleep (_pre_connect_timeout self) ;;
  index <- send_command_matching Serial PyStr.LFCR
             [_serial_user_match self; _onie_prompt self;
              _serial_prompt self; _vtysh_prompt self]
             (_bootup_timeout self) false ;;
  if Nat.eqb 0 index then send PyStr.LFCR
  else if Nat.eqb 1 index then
    sendline (Some "reboot") ;; sleep (_bootup_timeout self)
  else if Nat.eqb 2 index then sendcontrol "d"
  else if Nat.eqb 3 index then sendcontrol "d" ;; sendcontrol "d"
  else ret tt.

(** [OpenswitchSerialShell._close_serial_connection]: the loop body names
    [spawn], which is neither a local nor a global of the module. *)
Fixpoint _close_serial_connection (commands : list string) : M unit :=
  match commands with
  | [] => ret tt
  | command :: rest =>
      @raise unit (NameError "spawn") ;;
      _close_serial_connection rest
  end.

(** [OpenswitchSerialShell.disconnect]; [alive] is [spawn.isalive()].
    [AlreadyDisconnectedError] is not imported by the module. *)
Definition serial_disconnect (self : OpenswitchSerialShell)
    (alive : bool) : M unit :=
  (if negb alive then raise (NameError "AlreadyDisconnectedError")
   else ret tt) ;;
  _close_serial_connection (_serial_closing_commands self) ;;
  close.

End Shell.

(** ** nodes/openswitch.py: the firmware provisioning workflow *)

Module Openswitch.
Import Api.

(** The [image] block after [_load_image_attrs]. *)
Record ImageAttrs := {
  _image_path : string;
  _image_user : option string;
  _image_server_ip : string;
  _image_server_user : option string;
  _image_server_password : option string
}.

(** The [serial] block. *)
Record SerialAttrs := {
  serial_command : string;
  serial_user : option string;
  serial_password : option string;
  pre_connect_timeout : Z;
  closing_commands : list string
}.

Record OpenswitchNode := {
  identifier : string;
  _IP : string;
  _bootup_timeout : Z;
  _sys_init_after_bootup_timeout : Z;
  _bootloader_bootup_timeout : Z;
  _image_attrs : option ImageAttrs;
  _serial_attrs : option SerialAttrs;
  _reboot_command : option string
}.

Definition _serial_login_prompt := "[lL]ogin: ".
Definition _serial_onie_prompt := "ONIE:/ # ".
Definition _serial_boot_prompt := "OpenSwitch ".
Definition _serial_boot_onie_prompt := "ONIE".
Definition _serial_grub_prompt :=
  "(OpenSwitch Primary Image|OpenSwitch Secondary Image)".
Definition success_marker := "Installation finished. No error reported.".
Definition no_saved_config := "No saved configuration exists".

(** [x in image_load_status] *)
Definition registered (ip : string) (status : list string) : bool :=
  existsb (String.eqb ip) status.

Definition get_status : M (list string) :=
  fun w => (Ok (image_load_status w), w).

(** [image_load_status.append(ip)] *)
Definition append_status (ip : string) : M unit :=
  fun w => (Ok tt, set_status (image_load_status w ++ [ip]) w).

(** [printf] is not defined anywhere in the module. *)
Definition printf (msg : string) : M unit := raise (NameError "printf").

(** [assert cond, msg] *)
Definition assert (cond : bool) (msg : string) : M unit :=
  if cond then ret tt else raise (AssertionError msg).

(** [OpenswitchNode._reboot_switch] *)
Definition _reboot_switch (self : OpenswitchNode) : M unit :=
  match _reboot_command self with
  | Some command =>
      printf ("Switch '" ++ identifier self ++ "': rebooting") ;;
      status <- call command ;;
      (if Z.eqb 0 status then ret tt
       else raise (AttributeError "_OpenswitchNode__i")) ;;
      sleep (_bootup_timeout self)
  | None => ret tt
  end.

(** [OpenswitchNode._erase_startup_config] *)
Definition _erase_startup_config : M unit :=
  connect Vtysh ;;
  prev_prompt <- get_prompt Vtysh ;;
  put_prompt Vtysh "Do you want to continue \[y\/n\]" ;;
  _ <- call_shell Vtysh "erase startup-config" ;;
  put_prompt Vtysh prev_prompt ;;
  _ <- call_shell Vtysh "y" ;;
  disconnect Vtysh.

(** The [while seconds < 15] loop of [_create_startup_config];
    [remaining] is [15 - seconds]. *)
Fixpoint startup_config_loop (remaining : nat) : M unit :=
  match remaining with
  | O => ret tt
  | S k =>
      _ <- call_shell Vtysh "copy running-config startup-config" ;;
      out <- call_shell Vtysh "show startup-config" ;;
      if negb (PyStr.contains no_saved_config out) then ret tt
      else sleep 1 ;; startup_config_loop k
  end.

(** [OpenswitchNode._create_startup_config] *)
Definition _create_startup_config : M unit :=
  startup_config_loop 15 ;;
  disconnect Vtysh.

(** openswitch.py 198-208 *)
Definition establish_serial (self : OpenswitchNode) : M unit :=
  match _serial_attrs self with
  | None => raise TypeError               (* params.update(None) *)
  | Some attrs =>
      put_prompt Serial (PyStr.of_opt (serial_user attrs) ++ "@.+:~# ") ;;
      try_except (connect Serial)
                 (fun _ => _reboot_switch self ;; connect Serial)
  end.

(** openswitch.py 212-219; returns [temp]. *)
Definition reboot_to_bootloader (self : OpenswitchNode) : M Z :=
  put_prompt Serial _serial_grub_prompt ;;
  temp <- get_timeout Serial ;;
  (if negb (Z.eqb 0 (_bootloader_bootup_timeout self))
   then put_timeout Serial (_bootloader_bootup_timeout self)
   else ret tt) ;;
  _ <- call_serial "reboot" ;;
  put_timeout Serial temp ;;
  ret temp.

(** openswitch.py 220-241 *)
Definition select_rescue (temp : Z) : M unit :=
  put_prompt Serial _serial_boot_prompt ;;
  sleep 1 ;;
  send_command Serial PyStr.ARROW_DOWN false ;;
  send_command Serial PyStr.ARROW_DOWN false ;;
  send_command Serial PyStr.ARROW_DOWN false ;;
  sleep 1 ;;
  put_prompt Serial _serial_boot_onie_prompt ;;
  send_command Serial PyStr.LFCR false ;;
  sleep 1 ;;
  send_command Serial PyStr.ARROW_DOWN false ;;
  sleep 1 ;;
  put_prompt Serial "Please press Enter to activate this console." ;;
  put_timeout Serial 180 ;;
  send_command Serial PyStr.LFCR false ;;
  put_timeout Serial temp ;;
  put_prompt Serial _serial_onie_prompt ;;
  send_command Serial PyStr.LFCR false.

Definition image_source (img : ImageAttrs) : string :=
  PyStr.of_opt (_image_server_user img) ++ "@" ++ _image_server_ip img
    ++ ":" ++ _image_path img.

Definition stalled_message (self : OpenswitchNode) (img : ImageAttrs)
  : string :=
  "Switch '" ++ identifier self ++ "': "
    ++ "Timeout occured while downloading image from " ++ image_source img.

(** openswitch.py 258-272, the [while True] loop, run against the answers
    still to come.  [out] is the fragment kept from the previous timeout.
    Each turn issues one wait; the loop is left by a match, by the failed
    assertion, by output that does not decode, or it is still waiting when
    the answers run out.  Both [decode] calls are unguarded: the one after
    a match raises inside the [try], and the handler's own [decode] raises
    again; the one after a timeout raises in the handler. *)
Fixpoint download_loop (self : OpenswitchNode) (img : ImageAttrs)
    (out : string) (answers : list response) (w : world)
  : result string * world :=
  let w :=
    set_log (log w ++ [AExpect [_serial_onie_prompt] (serial_timeout w)]) w in
  match answers with
  | [] => (Blocked, set_script [] w)
  | Match _ before :: rest => (Ok before, set_script rest w)
  | Raise before :: rest =>
      let message := before in
      let prev_out := PyStr.slice_from (PyStr.rfind PyStr.CR message + 1)
                                       message in
      if negb (String.eqb prev_out out)
      then download_loop self img prev_out rest (set_script rest w)
      else (Exc (AssertionError (stalled_message self img)),
            set_script rest w)
  | MatchGarbled _ :: rest => (Exc UnicodeDecodeError, set_script rest w)
  | RaiseGarbled :: rest => (Exc UnicodeDecodeError, set_script rest w)
  end.

(** openswitch.py 250-272 *)
Definition wait_for_download (self : OpenswitchNode) (img : ImageAttrs)
  : M string :=
  fun w => download_loop self img "" (script w) w.

(** openswitch.py 242-272; returns [message]. *)
Definition download_image (self : OpenswitchNode) (img : ImageAttrs)
  : M string :=
  put_prompt Serial "Do you want to continue connecting\? \(y\/n\) " ;;
  _ <- call_serial ("scp " ++ image_source img ++ " ./") ;;
  put_prompt Serial ".+password: " ;;
  _ <- call_serial "y" ;;
  sendline (_image_server_password img) ;;
  wait_for_download self img.

(** openswitch.py 273-276 *)
Definition verify_download (self : OpenswitchNode) (message : string)
  : M unit :=
  put_prompt Serial _serial_onie_prompt ;;
  rc <- call_serial "echo $?" ;;
  assert (reply_eqb "0" rc)
    ("Switch '" ++ identifier self ++ "': Failed to download image: '"
       ++ message ++ "'").

Definition installer_command (img : ImageAttrs) : string :=
  "sh " ++ PyStr.slice_from (PyStr.rfind "/" (_image_path img) + 1)
                            (_image_path img).

(** openswitch.py 277-283 *)
Definition run_installer (self : OpenswitchNode) (img : ImageAttrs)
  : M unit :=
  put_prompt Serial "[rR]estart" ;;
  out <- call_serial (installer_command img) ;;
  found <- reply_contains success_marker out ;;
  assert found
    ("Switch '" ++ identifier self ++ "':Failed to burning image").

(** openswitch.py 285-292 *)
Definition reboot_to_production (self : OpenswitchNode) : M unit :=
  temp <- get_timeout Serial ;;
  (if negb (Z.eqb 0 (_bootloader_bootup_timeout self))
   then put_timeout Serial (_bootloader_bootup_timeout self)
   else ret tt) ;;
  put_prompt Serial _serial_grub_prompt ;;
  _ <- call_serial "" ;;
  put_timeout Serial temp ;;
  put_prompt Serial _serial_login_prompt ;;
  send_command Serial PyStr.LFCR false.

(** openswitch.py 294-295 *)
Definition settle_and_restore (self : OpenswitchNode) : M unit :=
  sleep (_sys_init_after_bootup_timeout self) ;;
  _create_startup_config.

(** openswitch.py 198-276: everything before the installer. *)
Definition burn_until_downloaded (self : OpenswitchNode) (img : ImageAttrs)
  : M unit :=
  establish_serial self ;;
  _erase_startup_config ;;
  temp <- reboot_to_bootloader self ;;
  select_rescue temp ;;
  message <- download_image self img ;;
  verify_download self message.

(** openswitch.py 277-297: the installer and what follows it. *)
Definition burn_from_installer (self : OpenswitchNode) (img : ImageAttrs)
  : M unit :=
  run_installer self img ;;
  reboot_to_production self ;;
  settle_and_restore self.

(** [OpenswitchNode._burn_image] *)
Definition _burn_image (self : OpenswitchNode) : M unit :=
  match _image_attrs self with
  | None => ret tt
  | Some img =>
      status <- get_status ;;
      if registered (_IP self) status then ret tt
      else
        append_status (_IP self) ;;
        burn_until_downloaded self img ;;
        burn_from_installer self img
  end.

(** Several device objects constructed one after the other; an exception
    of one construction is left to the caller and the next one runs in the
    world the previous one left.  A construction that never comes back
    from a wait ends the sequence. *)
Fixpoint burn_all (nodes : list OpenswitchNode) (w : world) : world :=
  match nodes with
  | [] => w
  | n :: rest =>
      match _burn_image n w with
      | (Blocked, w') => w'
      | (_, w') => burn_all rest w'
      end
  end.

End Openswitch.

(** ** shell.py: construction of the SSH parameters *)

Module ShellInit.

(** What [SshMixin.__init__] takes from outside the program:
    [getpwuid(getuid()).pw_name] and [expanduser('~/.ssh/')]. *)
Record Env := {
  pw_name : string;
  ssh_dir : string
}.

(** The keyword arguments [SshMixin.__init__] reads; [None] is a key that
    was not passed.  [identity_file] may also be passed as [None]. *)
Record SshKwargs := {
  kw_user : option string;
  kw_hostname : option string;
  kw_port : option Z;
  kw_options : option (list string);
  kw_identity_file : option (option string)
}.

(** [os.path.isabs(s)] *)
Definition isabs (s : string) : bool :=
  match s with
  | EmptyString => false
  | String a _ => Ascii.eqb a "/"
  end.

(** [s.endswith('/')] *)
Fixpoint endswith_slash (s : string) : bool :=
  match s with
  | EmptyString => false
  | String a EmptyString => Ascii.eqb a "/"
  | String _ rest => endswith_slash rest
  end.

(** [os.path.join(a, b)] *)
Definition join (a b : string) : string :=
  if isabs b then b
  else match a with
       | EmptyString => b
       | String _ _ => if endswith_slash a then a ++ b else a ++ "/" ++ b
       end.

(** shell.py 192-196: the identity file as the constructor leaves it. *)
Definition normalize_identity (env : Env) (identity_file : option string)
  : option string :=
  match identity_file with
  | Some f => if negb (isabs f) then Some (join (ssh_dir env) f) else Some f
  | None => None
  end.

(** [SshMixin.__init__] *)
Definition ssh_init (env : Env) (kw : SshKwargs) : Transport.SshMixin :=
  let _ssh_user := kw_user kw in
  let _hostname :=
    match kw_hostname kw with Some h => h | None => "127.0.0.1" end in
  let _port := match kw_port kw with Some p => p | None => 22%Z end in
  let _options :=
    match kw_options kw with Some o => o | None => ["BatchMode=yes"] end in
  let _identity_file :=
    match kw_identity_file kw with Some f => f | None => Some "id_rsa" end in
  let _ssh_user :=
    match _ssh_user with Some u => u | None => pw_name env end in
  {| Transport._ssh_user := _ssh_user;
     Transport._ssh_hostname := _hostname;
     Transport._ssh_port := _port;
     Transport._options := _options;
     Transport._identity_file := normalize_identity env _identity_file |}.

End ShellInit.

(** ** nodes/openswitch.py: the image block, the ports, rollback *)

Module Ports.
Import Api.

(** The [image] block as declared, and its [server] block. *)
Record ServerBlock := {
  server_IP : option string;
  server_user : option string;
  server_password : option string
}.

Record ImageBlock := {
  image_path : option string;
  image_user : option string;
  image_password : option string;
  image_server : option ServerBlock
}.

(** The attributes [_load_image_attrs] sets. *)
Record LoadedImage := {
  _image_path : option string;
  _image_user : option string;
  _image_password : option string;
  _image_server_ip : option string;
  _image_server_user : option string;
  _image_server_password : option string
}.

(** [None if '' == x else x] *)
Definition blank_to_none (x : option string) : option string :=
  match x with
  | Some s => if String.eqb "" s then None else Some s
  | None => None
  end.

(** [OpenswitchNode._load_image_attrs]; with no [server] block the first
    [_image_server_attr.get] is an attribute lookup on [None]. *)
Definition _load_image_attrs (image : ImageBlock) : exn + LoadedImage :=
  match image_server image with
  | None => inl (AttributeError "get")
  | Some server =>
      inr {| _image_path := image_path image;
             _image_user := image_user image;
             _image_password := blank_to_none (image_password image);
             _image_server_ip := server_IP server;
             _image_server_user := server_user server;
             _image_server_password :=
               blank_to_none (server_password server) |}
  end.

(** One entry of the [interfaces] block.  [bring_intf_up_timeout] is the
    integer [int(...)] makes of the declared value. *)
Record IntfConfig := {
  intf_name : option string;
  intf_speed : option string;
  bring_intf_up_timeout : option Z
}.

(** What the port methods read of the node. *)
Record PortNode := {
  port_identifier : string;
  _intf_attrs : option (list (string * IntfConfig));
  _clear_config : string
}.

(** What they read of the port object of the topology. *)
Record Biport := {
  metadata_label : option string;
  biport_identifier : string
}.

(** Exceptions of the interface lookup. *)
Inductive lookup_error :=
| IndexError                          (* [split('-')[1]] out of range *)
| NotIterable                         (* [label in None] *)
| UnknownInterface (msg : string).    (* the failed assertion *)

(** [s.split(c)] *)
Fixpoint split (c : ascii) (s : string) : list string :=
  match s with
  | EmptyString => [""]
  | String a rest =>
      if Ascii.eqb a c then "" :: split c rest
      else match split c rest with
           | [] => [String a ""]
           | h :: t => String a h :: t
           end
  end.

(** [d[key]] / [key in d] on a dictionary *)
Fixpoint lookup {V} (key : string) (d : list (string * V)) : option V :=
  match d with
  | [] => None
  | (k, v) :: rest => if String.eqb k key then Some v else lookup key rest
  end.

(** [OpenswitchNode._get_interface_config]; the default of
    [metadata.get('label', ...)] is evaluated before the lookup. *)
Definition _get_interface_config (self : PortNode) (biport : Biport)
  : lookup_error + (IntfConfig * string * string) :=
  match nth_error (split "-" (biport_identifier biport)) 1 with
  | None => inl IndexError
  | Some default =>
      let label :=
        match metadata_label biport with Some l => l | None => default end in
      match _intf_attrs self with
      | None => inl NotIterable
      | Some attrs =>
          match lookup label attrs with
          | None =>
              inl (UnknownInterface
                     ("Switch '" ++ port_identifier self
                        ++ "': unknown interface '" ++ label ++ "'"))
          | Some intf_config =>
              let real_label :=
                match intf_name intf_config with
                | Some n => n
                | None => label
                end in
              inr (intf_config, real_label, label)
          end
      end
  end.

(** openswitch.py 137-148: the commands of [bring_port_up] once the
    interface is looked up. *)
Definition port_up_commands (intf_config : IntfConfig) (real_label : string)
  : M string :=
  out <- call_shell Vtysh ("show interface " ++ real_label) ;;
  (if negb (PyStr.contains ("Interface " ++ real_label ++ " is up") out)
   then
     _ <- call_shell Vtysh "config" ;;
     _ <- call_shell Vtysh ("interface " ++ real_label) ;;
     (match intf_speed intf_config with
      | Some speed => _ <- call_shell Vtysh ("speed " ++ speed) ;; ret tt
      | None => ret tt
      end) ;;
     _ <- call_shell Vtysh "no shutdown" ;;
     _ <- call_shell Vtysh "exit" ;;
     _ <- call_shell Vtysh "exit" ;;
     ret tt
   else ret tt) ;;
  ret real_label.

(** [OpenswitchNode.bring_port_up] *)
Definition bring_port_up (self : PortNode) (biport : Biport)
  : world -> (lookup_error + result string) * world :=
  fun w =>
    match _get_interface_config self biport with
    | inl e => (inl e, w)
    | inr (intf_config, real_label, _) =>
        let (r, w') := port_up_commands intf_config real_label w in
        (inr r, w')
    end.

(** The [while iter < bring_intf_up_timeout] loop; [remaining] is
    [bring_intf_up_timeout - iter].  Returns [port_is_up]. *)
Fixpoint port_poll_loop (real_label : string) (remaining : nat) : M bool :=
  match remaining with
  | O => ret false
  | S k =>
      out <- call_shell Vtysh ("show interface " ++ real_label) ;;
      if PyStr.contains "Admin state is up" out then ret true
      else sleep 1 ;; port_poll_loop real_label k
  end.

Definition port_down_message (self : PortNode) (label real_label : string)
  : string :=
  String PyStr.LF
    ("Switch '" ++ port_identifier self ++ "', interface '" ++ label
       ++ "'(real name '" ++ real_label ++ "'): couldn't bring interface UP").

(** openswitch.py 154-173: [wait_port_becomes_up] once the interface is
    looked up. *)
Definition port_wait (self : PortNode) (intf_config : IntfConfig)
    (real_label label : string) : M unit :=
  let bring_intf_up_timeout :=
    match bring_intf_up_timeout intf_config with
    | Some t => t
    | None => 30%Z
    end in
  port_is_up <- port_poll_loop real_label (Z.to_nat bring_intf_up_timeout) ;;
  Openswitch.assert port_is_up (port_down_message self label real_label).

(** [OpenswitchNode.wait_port_becomes_up] *)
Definition wait_port_becomes_up (self : PortNode) (biport : Biport)
  : world -> (lookup_error + result unit) * world :=
  fun w =>
    match _get_interface_config self biport with
    | inl e => (inl e, w)
    | inr (intf_config, real_label, label) =>
        let (r, w') := port_wait self intf_config real_label label w in
        (inr r, w')
    end.

(** [OpenswitchNode.clear_config] *)
Definition clear_config (self : PortNode) : M unit :=
  if negb (String.eqb "true" (_clear_config self)) then ret tt
  else _ <- call_shell Vtysh "copy startup-config running-config" ;; ret tt.

(** [OpenswitchNode.rollback] *)
Definition rollback (self : Openswitch.OpenswitchNode) : M unit :=
  Openswitch._reboot_switch self.

End Ports.

(** ** Vocabulary of the properties *)

Module Vocab.
Import Transport Shell.

(** The [-i] part of the SSH command, as the source decides it: present
    exactly when the identity file is set and not empty. *)
Definition identity_flag (self : SshMixin) : string :=
  match _identity_file self with
  | Some f => if truthy (Some f) then " -i " ++ f else ""
  | None => ""
  end.

(** One [-o] flag per configured option. *)
Fixpoint option_flags (options : list string) : string :=
  match options with
  | [] => ""
  | o :: rest => " -o " ++ o ++ option_flags rest
  end.

(** The wait of the first race. *)
Definition user_race_wait (self : ConnectPExpectShell) : action :=
  AExpect [_user_match self; _initial_prompt self; _password_match self]
          (_timeout self).

(** The wait of the second race. *)
Definition password_race_wait (self : ConnectPExpectShell) : action :=
  AExpect [_password_match self; _initial_prompt self] (_timeout self).

Definition logged (acts : list action) (rest : list response) (w : world)
  : world :=
  set_script rest (set_log (log w ++ acts) w).

(** A shell of the base class with both credentials declared. *)
Definition demo_shell : ConnectPExpectShell :=
  {| _connect_user := Some "admin";
     _connect_password := Some "secret";
     _connect_initial_command := None;
     _user_match := "[uU]ser: ";
     _initial_prompt := "admin@.+:~# ";
     _password_match := "[pP]assword: ";
     _timeout := 30;
     _pre_setup_shell := no_hook;
     _post_setup_shell := no_hook |}.

Definition demo_world (answers : list response) : world :=
  {| image_load_status := []; script := answers; log := [];
     serial_prompt := ""; serial_timeout := 30;
     vtysh_prompt := "switch# "; vtysh_timeout := 30;
     reboot_status := 0 |}.

(** The character [c] occurs in [s]. *)
Fixpoint has_char (c : ascii) (s : string) : bool :=
  match s with
  | EmptyString => false
  | String a rest => Ascii.eqb a c || has_char c rest
  end.

(** The trailing fragment of a message: the text after its last carriage
    return, the whole message when it has none. *)
Definition fragment (message : string) : string :=
  PyStr.after_last PyStr.CR message.

(** The wait the download loop issues on every turn. *)
Definition download_wait (w : world) : action :=
  AExpect [Openswitch._serial_onie_prompt] (serial_timeout w).

(** A run of timeouts none of which repeats the fragment kept before it;
    [out] is the fragment kept when the run starts. *)
Fixpoint progressing (out : string) (befores : list string) : Prop :=
  match befores with
  | [] => True
  | b :: rest => fragment b <> out /\ progressing (fragment b) rest
  end.

(** The fragment kept after a run of timeouts. *)
Fixpoint last_fragment (out : string) (befores : list string) : string :=
  match befores with
  | [] => out
  | b :: rest => last_fragment (fragment b) rest
  end.

(** [n] progress lines that alternate between two texts. *)
Fixpoint alternating (n : nat) (odd : bool) : list string :=
  match n with
  | O => []
  | S k => (if odd then "1%" else "2%") :: alternating k (negb odd)
  end.

(** An answer whose output does not decode. *)
Definition garbled (r : response) : bool :=
  match r with
  | MatchGarbled _ | RaiseGarbled => true
  | Match _ _ | Raise _ => false
  end.

(** How the loop can end, read off the answers it was given: by a match
    after a run of progressing timeouts, by a timeout that repeats the
    fragment kept, by an answer whose output does not decode, or not at
    all within the answers. *)
Definition loop_outcome (self : Openswitch.OpenswitchNode)
    (img : Openswitch.ImageAttrs) (out : string) (answers : list response)
    (r : result string) : Prop :=
  match r with
  | Ok m =>
      exists befores index rest,
        answers = (map Raise befores ++ Match index m :: rest)%list
        /\ progressing out befores
  | Exc e =>
      (e = AssertionError (Openswitch.stalled_message self img)
       /\ exists befores b rest,
            answers = (map Raise befores ++ Raise b :: rest)%list
            /\ progressing out befores
            /\ fragment b = last_fragment out befores)
      \/ (e = UnicodeDecodeError
          /\ exists befores g rest,
               answers = (map Raise befores ++ g :: rest)%list
               /\ progressing out befores
               /\ garbled g = true)
  | Blocked =>
      exists befores, answers = map Raise befores /\ progressing out befores
  end.

(** A computation that leaves the burn-once registry as it found it. *)
Definition keeps_status {A} (m : M A) : Prop :=
  forall w, image_load_status (snd (m w)) = image_load_status w.

(** A switch with a re-image block, a serial block and a reboot command. *)
Definition demo_image : Openswitch.ImageAttrs :=
  {| Openswitch._image_path := "/srv/images/ops.bin";
     Openswitch._image_user := None;
     Openswitch._image_server_ip := "10.0.0.9";
     Openswitch._image_server_user := Some "lab";
     Openswitch._image_server_password := Some "labpw" |}.

Definition demo_serial : Openswitch.SerialAttrs :=
  {| Openswitch.serial_command := "telnet ts1 7001";
     Openswitch.serial_user := Some "root";
     Openswitch.serial_password := None;
     Openswitch.pre_connect_timeout := 0;
     Openswitch.closing_commands := [] |}.

Definition demo_node : Openswitch.OpenswitchNode :=
  {| Openswitch.identifier := "sw1";
     Openswitch._IP := "10.0.0.1";
     Openswitch._bootup_timeout := 60;
     Openswitch._sys_init_after_bootup_timeout := 30;
     Openswitch._bootloader_bootup_timeout := 0;
     Openswitch._image_attrs := Some demo_image;
     Openswitch._serial_attrs := Some demo_serial;
     Openswitch._reboot_command := Some "pdu cycle 3" |}.

(** Two lines of transfer progress, the second overwriting the first. *)
Definition two_progress_lines : string :=
  "ops.bin  10%" ++ String PyStr.CR "ops.bin  20%".

(** Answers that take [demo_node] through every stage before the
    installer: the two connects, the erase and its confirmation, the
    reboot, the seven menu keystrokes, the copy command and the host-key
    confirmation, then a download that times out twice while progressing
    and completes, and the exit status [0]. *)
Definition answers_until_installer : list response :=
  (repeat (Match 0 "") 14
   ++ [Raise "ops.bin  10%"; Raise two_progress_lines;
       Match 0 "ops.bin 100%"; Match 0 "0"])%list.

(** The installer command as [run_installer] issues it in world [w]. *)
Definition installer_call (img : Openswitch.ImageAttrs) (w : world) : action :=
  ACommand Serial (Openswitch.installer_command img) true ["[rR]estart"]
           (serial_timeout w).

Definition copy_command (w : world) : action :=
  ACommand Vtysh "copy running-config startup-config" true
           [vtysh_prompt w] (vtysh_timeout w).

Definition show_command (w : world) : action :=
  ACommand Vtysh "show startup-config" true
           [vtysh_prompt w] (vtysh_timeout w).

(** What one attempt that finds no startup configuration adds to the log. *)
Definition failed_attempt (w : world) : list action :=
  [copy_command w; show_command w; ASleep 1].

(** The answers to one attempt: the output of the copy and of the show. *)
Definition attempt_answers (outs : string * string) : list response :=
  [Match 0 (fst outs); Match 0 (snd outs)].

Definition is_copy (a : action) : bool :=
  match a with
  | ACommand Vtysh command _ _ _ =>
      String.eqb command "copy running-config startup-config"
  | _ => false
  end.

(** How many times the copy command was issued. *)
Definition copy_count (l : list action) : nat := length (filter is_copy l).

End Vocab.

Import Vocab.

(** ** Vocabulary for the remaining functions *)

Module Terms.

(** The wait before the initial command is sent. *)
Definition initial_command_wait (self : Shell.ConnectPExpectShell) : action :=
  AExpect [Shell._initial_prompt self] (Shell._timeout self).

(** A shell of the base class with user, password and initial command. *)
Definition demo_vty_shell : Shell.ConnectPExpectShell :=
  {| Shell._connect_user := Some "admin";
     Shell._connect_password := Some "secret";
     Shell._connect_initial_command := Some "vtysh";
     Shell._user_match := "[uU]ser: ";
     Shell._initial_prompt := "admin@.+:~# ";
     Shell._password_match := "[pP]assword: ";
     Shell._timeout := 30;
     Shell._pre_setup_shell := Shell.no_hook;
     Shell._post_setup_shell := Shell.no_hook |}.

(** The first call of the serial pre-setup: a bare ['\n\r'] raced against
    the four console states. *)
Definition console_probe (self : Shell.OpenswitchSerialShell) : action :=
  ACommand Serial PyStr.LFCR false
    [Shell._serial_user_match self; Shell._onie_prompt self;
     Shell._serial_prompt self; Shell._vtysh_prompt self]
    (Shell._bootup_timeout self).

Definition demo_serial_shell : Shell.OpenswitchSerialShell :=
  {| Shell._serial_user_match := "[lL]ogin: ";
     Shell._bootup_timeout := 60;
     Shell._pre_connect_timeout := 5;
     Shell._serial_closing_commands := [];
     Shell._onie_prompt := "ONIE:/ # ";
     Shell._serial_prompt := "root@.+:~# ";
     Shell._vtysh_prompt := "\w+(\(.+\))?# " |}.

Definition demo_env : ShellInit.Env :=
  {| ShellInit.pw_name := "tester"; ShellInit.ssh_dir := "/home/tester/.ssh/" |}.

(** No keyword argument passed at all. *)
Definition no_kwargs : ShellInit.SshKwargs :=
  {| ShellInit.kw_user := None; ShellInit.kw_hostname := None;
     ShellInit.kw_port := None; ShellInit.kw_options := None;
     ShellInit.kw_identity_file := None |}.

(** A command sent through the vtysh shell in world [w]. *)
Definition vtysh_call (command : string) (w : world) : action :=
  ACommand Vtysh command true [vtysh_prompt w] (vtysh_timeout w).

(** The configuration commands [bring_port_up] issues for an interface that
    is not up. *)
Definition config_commands (cfg : Ports.IntfConfig) (real_label : string)
  : list string :=
  (["config"; ("interface " ++ real_label)%string]
   ++ match Ports.intf_speed cfg with
      | Some speed => [("speed " ++ speed)%string]
      | None => []
      end
   ++ ["no shutdown"; "exit"; "exit"])%list.

(** The polling time of an interface, as [wait_port_becomes_up] reads it. *)
Definition poll_limit (cfg : Ports.IntfConfig) : nat :=
  Z.to_nat match Ports.bring_intf_up_timeout cfg with
           | Some t => t
           | None => 30%Z
           end.

(** What one poll that does not find the port up adds to the log. *)
Definition failed_poll (real_label : string) (w : world) : list action :=
  [vtysh_call ("show interface " ++ real_label) w; ASleep 1].

Definition demo_intf : Ports.IntfConfig :=
  {| Ports.intf_name := Some "7";
     Ports.intf_speed := Some "10000";
     Ports.bring_intf_up_timeout := Some 3%Z |}.

Definition demo_port_node : Ports.PortNode :=
  {| Ports.port_identifier := "sw1";
     Ports._intf_attrs := Some [("if01", demo_intf)];
     Ports._clear_config := "true" |}.

Definition demo_biport : Ports.Biport :=
  {| Ports.metadata_label := Some "if01";
     Ports.biport_identifier := "sw1-if01" |}.

(** The prompt [_erase_startup_config] waits for after the erase command. *)
Definition erase_confirmation : string := "Do you want to continue \[y\/n\]".

(** The exit-status query of the download check, as issued in world [w]. *)
Definition exit_status_query (w : world) : action :=
  ACommand Serial "echo $?" true [Openswitch._serial_onie_prompt]
           (serial_timeout w).

(** A switch declared with an image block and no serial block. *)
Definition demo_node_without_serial : Openswitch.OpenswitchNode :=
  {| Openswitch.identifier := "sw2";
     Openswitch._IP := "10.0.0.2";
     Openswitch._bootup_timeout := 0;
     Openswitch._sys_init_after_bootup_timeout := 0;
     Openswitch._bootloader_bootup_timeout := 0;
     Openswitch._image_attrs := Some demo_image;
     Openswitch._serial_attrs := None;
     Openswitch._reboot_command := None |}.

(** A computation that, when it returns normally, has left the observation
    [f] of the world as it found it. *)
Definition ok_keeps {A X} (f : world -> X) (m : M A) : Prop :=
  forall w a w', m w = (Ok a, w') -> f w' = f w.

(** A computation that, when it returns normally, has left the serial
    shell's timeout at [t]. *)
Definition ok_sets_timeout {A} (t : Z) (m : M A) : Prop :=
  forall w a w', m w = (Ok a, w') -> serial_timeout w' = t.

(** An image block declared with an empty image password. *)
Definition demo_server_block : Ports.ServerBlock :=
  {| Ports.server_IP := Some "10.0.0.9";
     Ports.server_user := Some "lab";
     Ports.server_password := Some "labpw" |}.

Definition demo_image_block : Ports.ImageBlock :=
  {| Ports.image_path := Some "/srv/images/ops.bin";
     Ports.image_user := None;
     Ports.image_password := Some "";
     Ports.image_server := Some demo_server_block |}.

End Terms.

Import Terms.

(** * Properties *)

(** ** Generic facts about the monad and the string helpers *)

Lemma bind_ok {A B} (m : M A) (k : A -> M B) w a w' :
  m w = (Ok a, w') -> bind m k w = k a w'.
Proof. intros H. unfold bind. now rewrite H. Qed.

Lemma bind_exc {A B} (m : M A) (k : A -> M B) w e w' :
  m w = (Exc e, w') -> bind m k w = (Exc e, w').
Proof. intros H. unfold bind. now rewrite H. Qed.

Lemma bind_blocked {A B} (m : M A) (k : A -> M B) w w' :
  m w = (Blocked, w') -> bind m k w = (Blocked, w').
Proof. intros H. unfold bind. now rewrite H. Qed.

(** Unfold the channel operations down to plain world passing. *)
Ltac chan_unfold :=
  cbv [Api.expect Api.send Api.sendline Api.sendcontrol Api.close Api.sleep
       Api.connect Api.disconnect Api.send_command_matching Api.send_command
       Api.call_shell Api.call_serial Api.reply_eqb Api.reply_contains
       Api.call bind ret raise try_except record await
       get_prompt put_prompt get_timeout put_timeout
       set_log set_script set_prompt set_timeout set_status
       prompt_of timeout_of
       image_load_status script log serial_prompt serial_timeout
       vtysh_prompt vtysh_timeout reboot_status].

Lemma str_app_empty_r (a : string) : (a ++ "" = a)%string.
Proof. induction a as [|x a IH]; simpl; [reflexivity | now rewrite IH]. Qed.

Lemma rfind_from_spec c s :
  forall i acc,
    (PyStr.rfind_from c s i acc = acc /\ has_char c s = false)
    \/ (exists p q,
          s = (p ++ String c q)%string
          /\ has_char c q = false
          /\ PyStr.rfind_from c s i acc
             = (i + Z.of_nat (String.length p))%Z).
Proof.
  induction s as [|a rest IH]; intros i acc; cbn [PyStr.rfind_from has_char].
  - left. split; reflexivity.
  - destruct (IH (i + 1)%Z (if Ascii.eqb a c then i else acc))
      as [[Hr Hn]|(p & q & Hs & Hn & Hr)].
    + destruct (Ascii.eqb_spec a c) as [E|NE].
      * right. exists "", rest. subst a. rewrite Hr. cbn.
        repeat split; [assumption|lia].
      * left. rewrite Hr, Hn. split; reflexivity.
    + right. exists (String a p), q. rewrite Hr, Hs. cbn [String.length].
      repeat split; [assumption|lia].
Qed.

Lemma drop_past_prefix p c q :
  PyStr.drop (S (String.length p)) (p ++ String c q) = q.
Proof. induction p as [|a p IH]; [reflexivity|exact IH]. Qed.

(** [after_last c s] is the text after the last [c] of [s], and all of [s]
    when [c] does not occur in it. *)
Lemma after_last_spec c s :
  (has_char c s = false /\ PyStr.after_last c s = s)
  \/ (exists p,
        s = (p ++ String c (PyStr.after_last c s))%string
        /\ has_char c (PyStr.after_last c s) = false).
Proof.
  unfold PyStr.after_last, PyStr.slice_from, PyStr.rfind.
  destruct (rfind_from_spec c s 0 (-1)) as [[Hr Hn]|(p & q & Hs & Hn & Hr)].
  - left. rewrite Hr. split; [assumption|reflexivity].
  - right. exists p. rewrite Hr.
    replace (Z.to_nat (0 + Z.of_nat (String.length p) + 1)%Z)
      with (S (String.length p)) by lia.
    rewrite Hs at 2 3. rewrite drop_past_prefix. split; assumption.
Qed.

(** ** Transport command builder *)

Section TransportProps.
Import Transport.

Lemma ssh_options_flags (self : SshMixin) :
  ssh_options self = option_flags (_options self).
Proof.
  unfold ssh_options. destruct (_options self) as [|o rest]; [reflexivity|].
  revert o. induction rest as [|r rest IH]; intros o.
  - simpl. now rewrite str_app_empty_r.
  - change (PyStr.join " -o " (o :: r :: rest))
      with (o ++ " -o " ++ PyStr.join " -o " (r :: rest))%string.
    rewrite (IH r). reflexivity.
Qed.

End TransportProps.

(** C8, as the code has it: the SSH command is
    [ssh user@host -p port], followed by [-i file] exactly when an identity
    file is configured, followed by one [-o option] per configured option
    whether or not an identity file is configured; the Telnet command is
    [telnet host port] and nothing else. *)
Theorem connect_command_shape :
  (forall self : Transport.SshMixin,
     Transport.ssh_get_connect_command self
     = "ssh " ++ Transport._ssh_user self ++ "@" ++ Transport._ssh_hostname self
         ++ " -p " ++ PyStr.of_int (Transport._ssh_port self)
         ++ identity_flag self ++ option_flags (Transport._options self))
  /\ (forall self : Transport.SshMixin,
        Transport._identity_file self = None ->
        identity_flag self = "")
  /\ (forall (self : Transport.SshMixin) c f,
        Transport._identity_file self = Some (String c f) ->
        identity_flag self = " -i " ++ String c f)
  /\ (forall self : Transport.TelnetMixin,
        Transport.telnet_get_connect_command self
        = "telnet " ++ Transport._telnet_hostname self ++ " "
            ++ PyStr.of_int (Transport._telnet_port self)).
Proof.
  split; [|split; [|split]].
  - intros self. unfold Transport.ssh_get_connect_command, identity_flag.
    rewrite ssh_options_flags.
    destruct (Transport._identity_file self) as [f|]; simpl.
    + destruct f as [|c f]; simpl; reflexivity.
    + reflexivity.
  - intros self H. unfold identity_flag. now rewrite H.
  - intros self c f H. unfold identity_flag. now rewrite H.
  - reflexivity.
Qed.

Lemma connect_command_shape_witness :
  let self := {| Transport._ssh_user := "admin";
                 Transport._ssh_hostname := "10.0.0.1";
                 Transport._ssh_port := 22;
                 Transport._options := ["BatchMode=no"];
                 Transport._identity_file := None |} in
  Transport._identity_file self = None /\ identity_flag self = "".
Proof.
  cbv zeta. split; [reflexivity|].
  apply (proj1 (proj2 connect_command_shape)). reflexivity.
Defined.

(** C8 as stated fails: with no identity file (password mode) the option
    flags are still part of the SSH command.  These are the parameters
    [OpenswitchNode] builds its SSH shells with. *)
Lemma ssh_password_mode_keeps_options :
  let self := {| Transport._ssh_user := "admin";
                 Transport._ssh_hostname := "10.0.0.1";
                 Transport._ssh_port := 22;
                 Transport._options :=
                   ["BatchMode=no"; "StrictHostKeyChecking=no"];
                 Transport._identity_file := None |} in
  Transport._identity_file self = None
  /\ Transport.ssh_get_connect_command self
     = "ssh admin@10.0.0.1 -p 22 -o BatchMode=no -o StrictHostKeyChecking=no"
  /\ Transport.ssh_get_connect_command self <> "ssh admin@10.0.0.1 -p 22".
Proof.
  cbv zeta. split; [reflexivity|]. split; [reflexivity|]. discriminate.
Qed.

(** ** The serial shell's disconnect *)

(** C10: with a non-empty list of closing commands, [disconnect] on a live
    serial session ends in [NameError] for the name [spawn]; the world is
    left as it was, so no closing command was sent and the connection was
    not closed. *)
Theorem serial_disconnect_name_error :
  forall (self : Shell.OpenswitchSerialShell) (w : world),
    Shell._serial_closing_commands self <> [] ->
    Shell.serial_disconnect self true w = (Exc (NameError "spawn"), w).
Proof.
  intros self w Hne. unfold Shell.serial_disconnect.
  destruct (Shell._serial_closing_commands self) as [|c cs];
    [contradiction|reflexivity].
Qed.

Lemma serial_disconnect_name_error_witness :
  let self := {| Shell._serial_user_match := "[lL]ogin: ";
                 Shell._bootup_timeout := 60;
                 Shell._pre_connect_timeout := 0;
                 Shell._serial_closing_commands := ["exit"];
                 Shell._onie_prompt := "ONIE:/ # ";
                 Shell._serial_prompt := "root@.+:~# ";
                 Shell._vtysh_prompt := "\w+(\(.+\))?# " |} in
  let w := {| image_load_status := []; script := []; log := [];
              serial_prompt := "root@.+:~# "; serial_timeout := 30;
              vtysh_prompt := "switch# "; vtysh_timeout := 30;
              reboot_status := 0 |} in
  Shell._serial_closing_commands self <> []
  /\ Shell.serial_disconnect self true w = (Exc (NameError "spawn"), w).
Proof.
  cbv zeta. split; [discriminate|].
  apply serial_disconnect_name_error. simpl. discriminate.
Defined.

(** Without closing commands the same call closes the connection. *)
Lemma serial_disconnect_no_commands :
  forall (self : Shell.OpenswitchSerialShell) (w : world),
    Shell._serial_closing_commands self = [] ->
    Shell.serial_disconnect self true w
    = (Ok tt, set_log (log w ++ [AClose]) w).
Proof.
  intros self w H. unfold Shell.serial_disconnect. now rewrite H.
Qed.

(** ** The handshake engine *)

Section Handshake.
Import Shell.

Lemma user_race_password_first self user password before rest w :
  _connect_user self = Some user ->
  _connect_password self = Some password ->
  script w = Match 2 before :: rest ->
  user_race self w
  = (Ok tt, logged [user_race_wait self;
                    ASendline (Some password)] rest w).
Proof.
  intros Hu Hp Hs. destruct w as [st sc lg sp stt vp vt rs]. simpl in Hs.
  subst sc. unfold user_race. rewrite Hu, Hp.
  unfold logged, user_race_wait. chan_unfold. cbn.
  now rewrite <- app_assoc.
Qed.

Lemma user_race_prompt_first self user before rest w :
  _connect_user self = Some user ->
  script w = Match 1 before :: rest ->
  user_race self w
  = (Ok tt, logged [user_race_wait self; ASend PyStr.LFCR] rest w).
Proof.
  intros Hu Hs. destruct w as [st sc lg sp stt vp vt rs]. simpl in Hs.
  subst sc. unfold user_race. rewrite Hu.
  unfold logged, user_race_wait. chan_unfold. cbn.
  now rewrite <- app_assoc.
Qed.

Lemma password_race_step self password index before rest w :
  _connect_password self = Some password ->
  script w = Match index before :: rest ->
  password_race self w
  = (Ok tt, logged [password_race_wait self;
                    if Nat.eqb 0 index then ASendline (Some password)
                    else ASend PyStr.LFCR] rest w).
Proof.
  intros Hp Hs. destruct w as [st sc lg sp stt vp vt rs]. simpl in Hs.
  subst sc. unfold password_race. rewrite Hp.
  unfold logged, password_race_wait. chan_unfold.
  destruct (Nat.eqb 0 index); now rewrite <- app_assoc.
Qed.

Lemma password_race_none self w :
  _connect_password self = None -> password_race self w = (Ok tt, w).
Proof. intros Hp. unfold password_race. now rewrite Hp. Qed.

Lemma logged_logged a1 r1 a2 r2 w :
  logged a2 r2 (logged a1 r1 w) = logged (a1 ++ a2) r2 w.
Proof. unfold logged. chan_unfold. now rewrite app_assoc. Qed.

Lemma script_logged a r w : script (logged a r w) = r.
Proof. reflexivity. Qed.

End Handshake.

(** C4, as the code has it: when the password prompt wins the first race
    and a password was declared, the engine sends the password at once, and
    then runs the second race all the same; there a password-prompt match
    sends the password again and any other match sends ['\n\r']. *)
Theorem password_prompt_first_sends_password :
  forall (self : Shell.ConnectPExpectShell) user password before
         index before' rest (w : world),
    Shell._connect_user self = Some user ->
    Shell._connect_password self = Some password ->
    script w = Match 2 before :: Match index before' :: rest ->
    Shell.user_race self w
    = (Ok tt, logged [user_race_wait self; ASendline (Some password)]
                     (Match index before' :: rest) w)
    /\ (Shell.user_race self ;; Shell.password_race self) w
       = (Ok tt, logged [user_race_wait self; ASendline (Some password);
                         password_race_wait self;
                         if Nat.eqb 0 index then ASendline (Some password)
                         else ASend PyStr.LFCR] rest w).
Proof.
  intros self user password before index before' rest w Hu Hp Hs.
  pose proof (user_race_password_first self user password before _ w
                Hu Hp Hs) as H1.
  split; [exact H1|].
  rewrite (bind_ok _ _ _ _ _ H1).
  rewrite (password_race_step self password index before' rest _ Hp
             (script_logged _ _ _)).
  now rewrite logged_logged.
Qed.

Lemma password_prompt_first_sends_password_witness :
  (Shell.user_race demo_shell ;; Shell.password_race demo_shell)
    (demo_world [Match 2 "Password: "; Match 1 "admin@sw:~# "])
  = (Ok tt,
     logged [user_race_wait demo_shell; ASendline (Some "secret");
             password_race_wait demo_shell; ASend PyStr.LFCR] []
            (demo_world [Match 2 "Password: "; Match 1 "admin@sw:~# "])).
Proof.
  exact (proj2 (password_prompt_first_sends_password demo_shell
                  "admin" "secret" "Password: " 1 "admin@sw:~# " []
                  (demo_world [Match 2 "Password: "; Match 1 "admin@sw:~# "])
                  eq_refl eq_refl eq_refl)).
Defined.

(** C4 as stated fails: after the password prompt wins the first race the
    engine does send something, the password, before the second race is
    entered. *)
Lemma password_prompt_first_is_not_silent :
  let w := demo_world [Match 2 "Password: "; Match 1 "admin@sw:~# "] in
  log (snd (Shell.user_race demo_shell w))
  = [AExpect ["[uU]ser: "; "admin@.+:~# "; "[pP]assword: "] 30;
     ASendline (Some "secret")]
  /\ log (snd (Shell.user_race demo_shell w))
     <> [AExpect ["[uU]ser: "; "admin@.+:~# "; "[pP]assword: "] 30]
  /\ log (snd (Shell._setup_shell demo_shell w))
     = [AExpect ["[uU]ser: "; "admin@.+:~# "; "[pP]assword: "] 30;
        ASendline (Some "secret");
        AExpect ["[pP]assword: "; "admin@.+:~# "] 30;
        ASend PyStr.LFCR].
Proof.
  cbv zeta. split; [reflexivity|]. split; [discriminate|reflexivity].
Qed.

(** C5, as the code has it: when the initial shell prompt wins the first
    race the engine sends ['\n\r']; with no password declared the second
    race is not run, with a password declared it is run as usual. *)
Theorem initial_prompt_first_then_password_race :
  forall (self : Shell.ConnectPExpectShell) user before rest (w : world),
    Shell._connect_user self = Some user ->
    script w = Match 1 before :: rest ->
    let w1 := logged [user_race_wait self; ASend PyStr.LFCR] rest w in
    Shell.user_race self w = (Ok tt, w1)
    /\ (Shell._connect_password self = None ->
        Shell.password_race self w1 = (Ok tt, w1))
    /\ (forall password index before' rest',
          Shell._connect_password self = Some password ->
          rest = Match index before' :: rest' ->
          (Shell.user_race self ;; Shell.password_race self) w
          = (Ok tt, logged [user_race_wait self; ASend PyStr.LFCR;
                            password_race_wait self;
                            if Nat.eqb 0 index then ASendline (Some password)
                            else ASend PyStr.LFCR] rest' w)).
Proof.
  intros self user before rest w Hu Hs w1.
  pose proof (user_race_prompt_first self user before rest w Hu Hs) as H1.
  split; [exact H1|]. split.
  - intros Hp. now apply password_race_none.
  - intros password index before' rest' Hp Hr.
    rewrite (bind_ok _ _ _ _ _ H1). subst rest.
    rewrite (password_race_step self password index before' rest' _ Hp
               (script_logged _ _ _)).
    now rewrite logged_logged.
Qed.

Lemma initial_prompt_first_then_password_race_witness :
  Shell.user_race demo_shell
    (demo_world [Match 1 "admin@sw:~# "; Match 1 "admin@sw:~# "])
  = (Ok tt,
     logged [user_race_wait demo_shell; ASend PyStr.LFCR]
            [Match 1 "admin@sw:~# "]
            (demo_world [Match 1 "admin@sw:~# "; Match 1 "admin@sw:~# "])).
Proof.
  exact (proj1 (initial_prompt_first_then_password_race demo_shell
                  "admin" "admin@sw:~# " [Match 1 "admin@sw:~# "]
                  (demo_world [Match 1 "admin@sw:~# "; Match 1 "admin@sw:~# "])
                  eq_refl eq_refl)).
Defined.

(** C5 as stated fails: with a password declared the second race is still
    run after the initial shell prompt won the first one. *)
Lemma initial_prompt_first_does_not_skip_race :
  let w := demo_world [Match 1 "admin@sw:~# "; Match 1 "admin@sw:~# "] in
  Shell._connect_password demo_shell = Some "secret"
  /\ log (snd (Shell._setup_shell demo_shell w))
     = [AExpect ["[uU]ser: "; "admin@.+:~# "; "[pP]assword: "] 30;
        ASend PyStr.LFCR;
        AExpect ["[pP]assword: "; "admin@.+:~# "] 30;
        ASend PyStr.LFCR]
  /\ In (password_race_wait demo_shell)
        (log (snd (Shell._setup_shell demo_shell w))).
Proof.
  cbv zeta. split; [reflexivity|]. split; [reflexivity|].
  simpl. right. right. left. reflexivity.
Qed.

(** ** The download wait loop *)

Section Download.
Import Openswitch.
Variables (self : OpenswitchNode) (img : ImageAttrs).

Lemma download_loop_stalled out before rest w :
  fragment before = out ->
  download_loop self img out (Raise before :: rest) w
  = (Exc (AssertionError (stalled_message self img)),
     logged [download_wait w] rest w).
Proof.
  intros H. cbn [download_loop].
  change (PyStr.slice_from (PyStr.rfind PyStr.CR before + 1) before)
    with (fragment before).
  rewrite H, String.eqb_refl. reflexivity.
Qed.

Lemma download_loop_resumes out before rest w :
  fragment before <> out ->
  download_loop self img out (Raise before :: rest) w
  = download_loop self img (fragment before) rest
      (logged [download_wait w] rest w).
Proof.
  intros H. cbn [download_loop].
  change (PyStr.slice_from (PyStr.rfind PyStr.CR before + 1) before)
    with (fragment before).
  apply String.eqb_neq in H. rewrite H. reflexivity.
Qed.

Lemma download_loop_matched out index before rest w :
  download_loop self img out (Match index before :: rest) w
  = (Ok before, logged [download_wait w] rest w).
Proof. reflexivity. Qed.

Lemma download_loop_waiting out befores w :
  progressing out befores ->
  fst (download_loop self img out (map Raise befores) w) = Blocked.
Proof.
  revert out w. induction befores as [|b bs IH]; intros out w H.
  - reflexivity.
  - destruct H as [Hne Hrest]. cbn [map].
    rewrite download_loop_resumes by exact Hne. now apply IH.
Qed.

Lemma alternating_progressing n :
  forall (odd : bool) (out : string),
    out <> (if odd then "1%" else "2%") ->
    progressing out (alternating n odd).
Proof.
  induction n as [|n IH]; intros odd out H; [exact I|].
  cbn [alternating progressing]. split.
  - destruct odd; intros E; apply H; rewrite <- E; reflexivity.
  - apply IH. destruct odd; discriminate.
Qed.

Lemma alternating_length n odd : length (alternating n odd) = n.
Proof.
  revert odd. induction n as [|n IH]; intros odd; [reflexivity|].
  cbn [alternating length]. now rewrite IH.
Qed.

Lemma download_loop_garbled out g rest w :
  garbled g = true ->
  download_loop self img out (g :: rest) w
  = (Exc UnicodeDecodeError, logged [download_wait w] rest w).
Proof. destruct g; intros H; try discriminate H; reflexivity. Qed.

Lemma download_loop_outcome answers :
  forall out w,
    loop_outcome self img out answers
      (fst (download_loop self img out answers w)).
Proof.
  induction answers as [|a rest IH]; intros out w.
  - exists []. split; [reflexivity|exact I].
  - destruct (garbled a) eqn:G.
    { rewrite download_loop_garbled by exact G. right.
      split; [reflexivity|]. exists [], a, rest. repeat split. exact G. }
    destruct a as [index before|before|index|]; try discriminate G.
    + rewrite download_loop_matched. exists [], index, rest.
      split; [reflexivity|exact I].
    + destruct (String.eqb_spec (fragment before) out) as [E|NE].
      * rewrite download_loop_stalled by exact E. left.
        split; [reflexivity|].
        exists [], before, rest. repeat split. exact E.
      * rewrite download_loop_resumes by exact NE.
        specialize (IH (fragment before) (logged [download_wait w] rest w)).
        destruct (fst (download_loop self img (fragment before) rest
                         (logged [download_wait w] rest w))) as [m|e|].
        -- destruct IH as (bs & i & tl & Hans & Hp).
           exists (before :: bs), i, tl. split.
           ++ cbn [map app]. now rewrite Hans.
           ++ split; assumption.
        -- destruct IH as [(He & bs & b & tl & Hans & Hp & Hf)
                          |(He & bs & g & tl & Hans & Hp & Hg)].
           ++ left. split; [exact He|].
              exists (before :: bs), b, tl. split.
              ** cbn [map app]. now rewrite Hans.
              ** split; [split; assumption | exact Hf].
           ++ right. split; [exact He|].
              exists (before :: bs), g, tl. split.
              ** cbn [map app]. now rewrite Hans.
              ** split; [split; assumption | exact Hg].
        -- destruct IH as (bs & Hans & Hp).
           exists (before :: bs). split.
           ++ cbn [map]. now rewrite Hans.
           ++ split; assumption.
Qed.

End Download.

(** C1, as the code has it: in the download wait loop every timeout
    compares the trailing fragment of the output with the fragment kept
    from the timeout before: when they are equal the loop fails with the
    stalled-download assertion, when they differ the new fragment is kept
    and the wait is issued again.  No number of timeouts ends the loop
    while the fragment keeps changing.  Whenever the loop is left it is by
    a match of the rescue prompt, by two equal fragments in a row, or by
    output that does not decode, which ends it with [UnicodeDecodeError]
    whether the wait matched or timed out. *)
Theorem download_stall_detection :
  forall (self : Openswitch.OpenswitchNode) (img : Openswitch.ImageAttrs),
    (forall out before rest w,
        fragment before = out ->
        Openswitch.download_loop self img out (Raise before :: rest) w
        = (Exc (AssertionError (Openswitch.stalled_message self img)),
           logged [download_wait w] rest w))
    /\ (forall out before rest w,
          fragment before <> out ->
          Openswitch.download_loop self img out (Raise before :: rest) w
          = Openswitch.download_loop self img (fragment before) rest
              (logged [download_wait w] rest w))
    /\ (forall out befores w,
          progressing out befores ->
          fst (Openswitch.download_loop self img out (map Raise befores) w)
          = Blocked)
    /\ (forall n : nat,
          exists befores, length befores = n /\ progressing "" befores)
    /\ (forall out index before rest w,
          Openswitch.download_loop self img out (Match index before :: rest) w
          = (Ok before, logged [download_wait w] rest w))
    /\ (forall out g rest w,
          garbled g = true ->
          Openswitch.download_loop self img out (g :: rest) w
          = (Exc UnicodeDecodeError, logged [download_wait w] rest w))
    /\ (forall out answers w,
          loop_outcome self img out answers
            (fst (Openswitch.download_loop self img out answers w))).
Proof.
  intros self img. repeat split.
  - apply download_loop_stalled.
  - apply download_loop_resumes.
  - apply download_loop_waiting.
  - intros n. exists (alternating n true). split.
    + apply alternating_length.
    + apply alternating_progressing. discriminate.
  - apply download_loop_garbled.
  - intros out answers w. apply download_loop_outcome.
Qed.

Lemma download_stall_detection_witness :
  fragment two_progress_lines = "ops.bin  20%"
  /\ Openswitch.download_loop demo_node demo_image "ops.bin  20%"
       [Raise two_progress_lines] (demo_world [])
     = (Exc (AssertionError (Openswitch.stalled_message demo_node demo_image)),
        logged [download_wait (demo_world [])] [] (demo_world [])).
Proof.
  split; [reflexivity|].
  apply (proj1 (download_stall_detection demo_node demo_image)).
  reflexivity.
Defined.

(** C1 as stated fails: the loop is also left when the output of a wait
    does not decode.  Here the transfer is progressing, the next timeout's
    output is not valid text, and the loop ends with [UnicodeDecodeError]:
    the rescue prompt was not matched and no fragment was repeated. *)
Lemma undecodable_output_ends_download_loop :
  let w := demo_world [Raise "ops.bin  10%"; RaiseGarbled;
                       Match 0 "ops.bin 100%"] in
  Openswitch.wait_for_download demo_node demo_image w
  = (Exc UnicodeDecodeError,
     logged [download_wait w; download_wait w] [Match 0 "ops.bin 100%"] w)
  /\ (forall m, fst (Openswitch.wait_for_download demo_node demo_image w)
                <> Ok m)
  /\ fst (Openswitch.wait_for_download demo_node demo_image w)
     <> Exc (AssertionError (Openswitch.stalled_message demo_node demo_image)).
Proof.
  cbv zeta. split; [reflexivity|]. split; [intros m|]; discriminate.
Qed.

(** Timeout, changed fragment, timeout, same fragment: the third wait is the
    last one and the stage fails. *)
Example stall_after_progress :
  Openswitch.wait_for_download demo_node demo_image
    (demo_world [Raise "ops.bin  10%"; Raise two_progress_lines;
                 Raise two_progress_lines; Match 0 "late"])
  = (Exc (AssertionError
            "Switch 'sw1': Timeout occured while downloading image from lab@10.0.0.9:/srv/images/ops.bin"),
     logged [download_wait (demo_world []); download_wait (demo_world []);
             download_wait (demo_world [])]
            [Match 0 "late"] (demo_world [])).
Proof. reflexivity. Qed.

(** Two timeouts with differing fragments: the loop is still waiting. *)
Example still_waiting_after_progress :
  fst (Openswitch.wait_for_download demo_node demo_image
         (demo_world [Raise "ops.bin  10%"; Raise two_progress_lines]))
  = Blocked.
Proof. reflexivity. Qed.

(** C9: the fragment kept before the first timeout is the empty string, so
    a first timeout whose trailing fragment is empty fails the stage at
    once, after a single wait. *)
Theorem first_timeout_with_empty_fragment_stalls :
  forall (self : Openswitch.OpenswitchNode) (img : Openswitch.ImageAttrs)
         before rest (w : world),
    fragment before = "" ->
    script w = Raise before :: rest ->
    Openswitch.wait_for_download self img w
    = (Exc (AssertionError (Openswitch.stalled_message self img)),
       logged [download_wait w] rest w).
Proof.
  intros self img before rest w Hf Hs. unfold Openswitch.wait_for_download.
  rewrite Hs. now apply download_loop_stalled.
Qed.

Lemma first_timeout_with_empty_fragment_stalls_witness :
  let w := demo_world [Raise ("ops.bin  10%" ++ String PyStr.CR "")] in
  fragment ("ops.bin  10%" ++ String PyStr.CR "") = ""
  /\ Openswitch.wait_for_download demo_node demo_image w
     = (Exc (AssertionError (Openswitch.stalled_message demo_node demo_image)),
        logged [download_wait w] [] w).
Proof.
  cbv zeta. split; [reflexivity|].
  apply (first_timeout_with_empty_fragment_stalls demo_node demo_image
           ("ops.bin  10%" ++ String PyStr.CR "") []); reflexivity.
Defined.

(** ** The burn-once registry *)

Section Registry.
Import Api Openswitch.

Lemma keeps_ret {A} (a : A) : keeps_status (ret a).
Proof. intros w. reflexivity. Qed.

Lemma keeps_raise {A} (e : exn) : keeps_status (@raise A e).
Proof. intros w. reflexivity. Qed.

Lemma keeps_bind {A B} (m : M A) (k : A -> M B) :
  keeps_status m -> (forall a, keeps_status (k a)) -> keeps_status (bind m k).
Proof.
  intros Hm Hk w. unfold bind. specialize (Hm w).
  destruct (m w) as [[a|e|] w']; simpl in *; [|assumption|assumption].
  now rewrite Hk.
Qed.

Lemma keeps_try {A} (m : M A) (h : exn -> M A) :
  keeps_status m -> (forall e, keeps_status (h e)) ->
  keeps_status (try_except m h).
Proof.
  intros Hm Hh w. unfold try_except. specialize (Hm w).
  destruct (m w) as [[a|e|] w']; simpl in *; [assumption| |assumption].
  now rewrite Hh.
Qed.

Lemma keeps_record a : keeps_status (record a).
Proof. intros w. reflexivity. Qed.

Lemma keeps_await : keeps_status await.
Proof. intros w. unfold await. now destruct (script w). Qed.

Lemma keeps_get_prompt sh : keeps_status (get_prompt sh).
Proof. intros w. reflexivity. Qed.

Lemma keeps_put_prompt sh p : keeps_status (put_prompt sh p).
Proof. intros w. reflexivity. Qed.

Lemma keeps_get_timeout sh : keeps_status (get_timeout sh).
Proof. intros w. reflexivity. Qed.

Lemma keeps_put_timeout sh t : keeps_status (put_timeout sh t).
Proof. intros w. reflexivity. Qed.

Lemma keeps_reboot_status :
  keeps_status (fun w : world => (Ok (reboot_status w), w)).
Proof. intros w. reflexivity. Qed.

(** Break a computation into its operations and close each of them. *)
Ltac keeps :=
  repeat first
    [ apply keeps_ret | apply keeps_raise | apply keeps_record
    | apply keeps_await | apply keeps_get_prompt | apply keeps_put_prompt
    | apply keeps_get_timeout | apply keeps_put_timeout
    | apply keeps_reboot_status
    | match goal with H : _ |- _ => solve [apply H] end
    | apply keeps_bind; [|intros]
    | apply keeps_try; [|intros]
    | match goal with
      | |- keeps_status (match ?x with _ => _ end) => destruct x
      end ].

Lemma keeps_expect ps t : keeps_status (expect ps t).
Proof. unfold expect. keeps. Qed.

Lemma keeps_connect sh : keeps_status (connect sh).
Proof. unfold connect. keeps. Qed.

Lemma keeps_send_command sh c nl : keeps_status (send_command sh c nl).
Proof. unfold send_command, send_command_matching. keeps. Qed.

Lemma keeps_call_shell sh c : keeps_status (call_shell sh c).
Proof. unfold call_shell. keeps. Qed.

Lemma keeps_call_serial c : keeps_status (call_serial c).
Proof. unfold call_serial. keeps. Qed.

Lemma keeps_reply_contains needle out :
  keeps_status (reply_contains needle out).
Proof. unfold reply_contains. keeps. Qed.

Lemma keeps_reboot_switch self : keeps_status (_reboot_switch self).
Proof.
  unfold _reboot_switch, printf, call, sleep. keeps.
Qed.

Lemma keeps_erase : keeps_status _erase_startup_config.
Proof.
  unfold _erase_startup_config, disconnect.
  pose proof keeps_connect. pose proof keeps_call_shell. keeps.
Qed.

Lemma keeps_startup_loop n : keeps_status (startup_config_loop n).
Proof.
  induction n as [|n IH]; cbn [startup_config_loop]; unfold sleep.
  - keeps.
  - pose proof keeps_call_shell. keeps.
Qed.

Lemma keeps_create_startup_config : keeps_status _create_startup_config.
Proof.
  unfold _create_startup_config, disconnect.
  pose proof keeps_startup_loop. keeps.
Qed.

Lemma keeps_download_loop self img answers :
  forall out w,
    image_load_status (snd (download_loop self img out answers w))
    = image_load_status w.
Proof.
  induction answers as [|a rest IH]; intros out w; [reflexivity|].
  destruct a as [i b|b|i|]; try reflexivity. cbn [download_loop].
  destruct (negb _); [|reflexivity]. now rewrite IH.
Qed.

Lemma keeps_until_downloaded self img :
  keeps_status (burn_until_downloaded self img).
Proof.
  unfold burn_until_downloaded, establish_serial, reboot_to_bootloader,
    select_rescue, download_image, verify_download, assert, sleep, sendline.
  pose proof keeps_connect. pose proof keeps_call_shell.
  pose proof keeps_call_serial.
  pose proof keeps_send_command. pose proof keeps_reboot_switch.
  pose proof keeps_erase.
  assert (keeps_status (wait_for_download self img))
    by (intros w; apply keeps_download_loop).
  keeps.
Qed.

Lemma keeps_from_installer self img :
  keeps_status (burn_from_installer self img).
Proof.
  unfold burn_from_installer, run_installer, reboot_to_production,
    settle_and_restore, assert, sleep.
  pose proof keeps_call_shell. pose proof keeps_call_serial.
  pose proof keeps_reply_contains. pose proof keeps_send_command.
  pose proof keeps_create_startup_config.
  keeps.
Qed.

Lemma registered_In ip status : registered ip status = true <-> In ip status.
Proof.
  unfold registered. rewrite existsb_exists. split.
  - intros (x & Hin & Heq). apply String.eqb_eq in Heq. now subst.
  - intros Hin. exists ip. split; [assumption|apply String.eqb_refl].
Qed.

Lemma burn_image_skips self w :
  registered (_IP self) (image_load_status w) = true ->
  _burn_image self w = (Ok tt, w).
Proof.
  intros H. unfold _burn_image. destruct (_image_attrs self); [|reflexivity].
  unfold bind, get_status. now rewrite H.
Qed.

Lemma burn_image_registers_first self img w :
  _image_attrs self = Some img ->
  registered (_IP self) (image_load_status w) = false ->
  _burn_image self w
  = (burn_until_downloaded self img ;; burn_from_installer self img)
      (set_status (image_load_status w ++ [_IP self])%list w).
Proof.
  intros Hi Hr. unfold _burn_image. rewrite Hi.
  unfold bind at 1. unfold get_status. rewrite Hr.
  unfold bind at 1. reflexivity.
Qed.

Lemma burn_image_status self img w :
  _image_attrs self = Some img ->
  registered (_IP self) (image_load_status w) = false ->
  image_load_status (snd (_burn_image self w))
  = (image_load_status w ++ [_IP self])%list.
Proof.
  intros Hi Hr. rewrite (burn_image_registers_first self img w Hi Hr).
  pose proof (keeps_until_downloaded self img).
  pose proof (keeps_from_installer self img).
  assert (K : keeps_status
                (burn_until_downloaded self img ;; burn_from_installer self img))
    by keeps.
  rewrite K. reflexivity.
Qed.

Lemma burn_image_keeps_entries self w ip :
  In ip (image_load_status w) ->
  In ip (image_load_status (snd (_burn_image self w))).
Proof.
  intros Hin.
  destruct (_image_attrs self) as [img|] eqn:Hi.
  - destruct (registered (_IP self) (image_load_status w)) eqn:Hr.
    + now rewrite burn_image_skips.
    + rewrite (burn_image_status self img w Hi Hr).
      apply in_or_app. now left.
  - unfold _burn_image. now rewrite Hi.
Qed.

Lemma burn_image_registered_after self w :
  _image_attrs self <> None ->
  In (_IP self) (image_load_status (snd (_burn_image self w))).
Proof.
  intros Hi. destruct (_image_attrs self) as [img|] eqn:E; [|contradiction].
  destruct (registered (_IP self) (image_load_status w)) eqn:Hr.
  - rewrite burn_image_skips by assumption. now apply registered_In.
  - rewrite (burn_image_status self img w E Hr).
    apply in_or_app. right. now left.
Qed.

Lemma burn_all_keeps_entries nodes :
  forall w ip,
    In ip (image_load_status w) ->
    In ip (image_load_status (burn_all nodes w)).
Proof.
  induction nodes as [|n rest IH]; intros w ip Hin; [assumption|].
  cbn [burn_all].
  pose proof (burn_image_keeps_entries n w ip Hin) as H.
  destruct (_burn_image n w) as [[[]|e|] w']; simpl in H;
    [now apply IH | now apply IH | assumption].
Qed.

Lemma burn_all_registers_head first others w :
  _image_attrs first <> None ->
  In (_IP first) (image_load_status (burn_all (first :: others) w)).
Proof.
  intros Hi. cbn [burn_all].
  pose proof (burn_image_registered_after first w Hi) as H.
  destruct (_burn_image first w) as [[[]|e|] w']; simpl in H;
    [now apply burn_all_keeps_entries | now apply burn_all_keeps_entries
    | assumption].
Qed.

End Registry.

(** C2: the workflow looks the device's IP up in the registry before any
    stage and does nothing at all when it is there; otherwise the IP is
    appended first and every stage runs in a world that already holds it;
    whatever the outcome the entry stays, no run removes an entry, and a
    later device object with the same IP, after any other constructions and
    whether or not the first burn succeeded, is skipped. *)
Theorem burn_once_per_identity :
  (forall self w,
      Openswitch.registered (Openswitch._IP self) (image_load_status w) = true ->
      Openswitch._burn_image self w = (Ok tt, w))
  /\ (forall self img w,
        Openswitch._image_attrs self = Some img ->
        Openswitch.registered (Openswitch._IP self) (image_load_status w)
        = false ->
        Openswitch._burn_image self w
        = (Openswitch.burn_until_downloaded self img ;;
           Openswitch.burn_from_installer self img)
            (set_status (image_load_status w ++ [Openswitch._IP self])%list w)
        /\ image_load_status (snd (Openswitch._burn_image self w))
           = (image_load_status w ++ [Openswitch._IP self])%list)
  /\ (forall self w ip,
        In ip (image_load_status w) ->
        In ip (image_load_status (snd (Openswitch._burn_image self w))))
  /\ (forall first others second w,
        Openswitch._image_attrs first <> None ->
        Openswitch._IP second = Openswitch._IP first ->
        let w' := Openswitch.burn_all (first :: others) w in
        Openswitch._burn_image second w' = (Ok tt, w')).
Proof.
  split; [|split; [|split]].
  - apply burn_image_skips.
  - intros self img w Hi Hr. split.
    + now apply burn_image_registers_first.
    + now apply burn_image_status with (img := img).
  - apply burn_image_keeps_entries.
  - intros first others second w Hi Hip w'.
    apply burn_image_skips. rewrite Hip. apply registered_In.
    now apply burn_all_registers_head.
Qed.

Lemma burn_once_per_identity_witness :
  let w := demo_world [Raise ""] in
  let w' := Openswitch.burn_all [demo_node] w in
  Openswitch._image_attrs demo_node <> None
  /\ fst (Openswitch._burn_image demo_node w) = Exc (NameError "printf")
  /\ Openswitch._burn_image demo_node w' = (Ok tt, w').
Proof.
  cbv zeta. split; [discriminate|]. split; [reflexivity|].
  apply (proj2 (proj2 (proj2 burn_once_per_identity)) demo_node [] demo_node).
  - simpl. discriminate.
  - reflexivity.
Defined.

(** ** Stage 1: the serial session *)

(** C3: the code at a first failed handshake with a reboot command
    configured.  [_reboot_switch] stops at the undefined name [printf]: the
    reboot command is not run and the handshake is not tried again; the
    only call made is the first [connect]. *)
Theorem reboot_retry_stops_at_printf :
  forall (self : Openswitch.OpenswitchNode) attrs command before rest
         (w : world),
    Openswitch._serial_attrs self = Some attrs ->
    Openswitch._reboot_command self = Some command ->
    script w = Raise before :: rest ->
    Openswitch.establish_serial self w
    = (Exc (NameError "printf"),
       logged [AConnect Serial] rest
         (set_prompt Serial
            (PyStr.of_opt (Openswitch.serial_user attrs) ++ "@.+:~# ") w)).
Proof.
  intros self attrs command before rest w Ha Hc Hs.
  destruct w as [st sc lg sp stt vp vt rs]. simpl in Hs. subst sc.
  unfold Openswitch.establish_serial, Openswitch._reboot_switch,
    Openswitch.printf. rewrite Ha, Hc. reflexivity.
Qed.

Lemma reboot_retry_stops_at_printf_witness :
  let w := demo_world [Raise ""; Match 0 "login: "] in
  Openswitch._reboot_command demo_node = Some "pdu cycle 3"
  /\ Openswitch.establish_serial demo_node w
     = (Exc (NameError "printf"),
        logged [AConnect Serial] [Match 0 "login: "]
          (set_prompt Serial "root@.+:~# " w)).
Proof.
  cbv zeta. split; [reflexivity|].
  apply (reboot_retry_stops_at_printf demo_node demo_serial "pdu cycle 3" "");
    reflexivity.
Defined.

(** With no reboot command configured the handshake is tried a second time
    and its outcome is the outcome of the stage. *)
Lemma retry_without_reboot_command :
  forall (self : Openswitch.OpenswitchNode) attrs before second rest
         (w : world),
    Openswitch._serial_attrs self = Some attrs ->
    Openswitch._reboot_command self = None ->
    script w = Raise before :: second :: rest ->
    Openswitch.establish_serial self w
    = (match second with
       | Match _ _ | MatchGarbled _ => Ok tt
       | Raise _ | RaiseGarbled => Exc ChannelError
       end,
       logged [AConnect Serial; AConnect Serial] rest
         (set_prompt Serial
            (PyStr.of_opt (Openswitch.serial_user attrs) ++ "@.+:~# ") w)).
Proof.
  intros self attrs before second rest w Ha Hc Hs.
  destruct w as [st sc lg sp stt vp vt rs]. simpl in Hs. subst sc.
  unfold Openswitch.establish_serial, Openswitch._reboot_switch.
  rewrite Ha, Hc. unfold logged. chan_unfold. cbn.
  destruct second; rewrite <- app_assoc; reflexivity.
Qed.

(** ** The installer stage *)

Section Installer.
Import Api Openswitch.

Lemma installer_without_marker self img index out rest w :
  script w = Match index out :: rest ->
  PyStr.contains success_marker out = false ->
  burn_from_installer self img w
  = (Exc (AssertionError
            ("Switch '" ++ identifier self ++ "':Failed to burning image")),
     logged [installer_call img w] rest (set_prompt Serial "[rR]estart" w)).
Proof.
  intros Hs Hm. destruct w as [st sc lg sp stt vp vt rs]. simpl in Hs.
  subst sc. unfold burn_from_installer, run_installer, assert, logged,
    installer_call.
  chan_unfold. rewrite Hm. reflexivity.
Qed.

End Installer.

(** C6: when the workflow has come through the download and the installer's
    output does not contain the success marker, the workflow fails with the
    installer assertion; the device's IP is still in the registry, and the
    installer command is the last thing sent: nothing of the reboot to
    production follows it. *)
Theorem missing_success_marker_aborts :
  forall (self : Openswitch.OpenswitchNode) img index out rest (w w1 : world),
    Openswitch._image_attrs self = Some img ->
    Openswitch.registered (Openswitch._IP self) (image_load_status w) = false ->
    Openswitch.burn_until_downloaded self img
      (set_status (image_load_status w ++ [Openswitch._IP self])%list w)
    = (Ok tt, w1) ->
    script w1 = Match index out :: rest ->
    PyStr.contains Openswitch.success_marker out = false ->
    let w2 := logged [installer_call img w1] rest
                (set_prompt Serial "[rR]estart" w1) in
    Openswitch._burn_image self w
    = (Exc (AssertionError
              ("Switch '" ++ Openswitch.identifier self
                 ++ "':Failed to burning image")), w2)
    /\ In (Openswitch._IP self) (image_load_status w2)
    /\ log w2 = (log w1 ++ [installer_call img w1])%list.
Proof.
  intros self img index out rest w w1 Hi Hr Hrun Hs Hm w2.
  split; [|split].
  - rewrite (burn_image_registers_first self img w Hi Hr).
    rewrite (bind_ok _ _ _ _ _ Hrun).
    now apply installer_without_marker with (index := index) (out := out).
  - pose proof (keeps_until_downloaded self img
                  (set_status (image_load_status w ++ [Openswitch._IP self])%list
                              w)) as K.
    rewrite Hrun in K. simpl in K.
    change (image_load_status w2) with (image_load_status w1).
    rewrite K. apply in_or_app. right. now left.
  - reflexivity.
Qed.

Lemma missing_success_marker_aborts_witness :
  let w := demo_world (answers_until_installer
                       ++ [Match 0 "Failure: checksum mismatch"]) in
  let w1 := snd (Openswitch.burn_until_downloaded demo_node demo_image
                   (set_status
                      (image_load_status w ++ [Openswitch._IP demo_node])%list
                      w)) in
  let w2 := logged [installer_call demo_image w1] []
              (set_prompt Serial "[rR]estart" w1) in
  Openswitch._burn_image demo_node w
  = (Exc (AssertionError
            ("Switch '" ++ Openswitch.identifier demo_node
               ++ "':Failed to burning image")), w2)
  /\ In (Openswitch._IP demo_node) (image_load_status w2)
  /\ log w2 = (log w1 ++ [installer_call demo_image w1])%list.
Proof.
  intros w w1 w2.
  apply (missing_success_marker_aborts demo_node demo_image 0
           "Failure: checksum mismatch" [] w w1);
    vm_compute; reflexivity.
Defined.

(** With the marker in the installer's output the reboot to production is
    issued: the empty command that waits for the boot menu comes right
    after the installer command. *)
Example marker_present_reboots :
  let w := demo_world (answers_until_installer
                       ++ [Match 0 "Installation finished. No error reported."]) in
  let r := Openswitch._burn_image demo_node w in
  fst r = Blocked
  /\ skipn 24 (log (snd r))
     = [ACommand Serial "sh ops.bin" true ["[rR]estart"] 30;
        ACommand Serial "" true
          ["(OpenSwitch Primary Image|OpenSwitch Secondary Image)"] 30].
Proof. cbv zeta. split; vm_compute; reflexivity. Qed.

(** ** The last stage: creating the startup configuration *)

Section StartupConfig.
Import Api Openswitch.

Lemma logged_nil w : logged [] (script w) w = w.
Proof.
  destruct w as [st sc lg sp stt vp vt rs]. unfold logged. chan_unfold.
  now rewrite app_nil_r.
Qed.

Lemma failed_attempt_logged acts rest w :
  failed_attempt (logged acts rest w) = failed_attempt w.
Proof. reflexivity. Qed.

(** One turn of the loop that still finds no startup configuration. *)
Lemma startup_loop_turn k i copy_out j show_out rest w :
  script w = Match i copy_out :: Match j show_out :: rest ->
  PyStr.contains no_saved_config show_out = true ->
  startup_config_loop (S k) w
  = startup_config_loop k (logged (failed_attempt w) rest w).
Proof.
  intros Hs Hc. destruct w as [st sc lg sp stt vp vt rs]. simpl in Hs.
  subst sc. cbn [startup_config_loop].
  unfold logged, failed_attempt, copy_command, show_command.
  chan_unfold. rewrite Hc. cbn [negb].
  rewrite <- !app_assoc. reflexivity.
Qed.

Lemma startup_loop_exhausted outs :
  forall rest w,
    Forall (fun p => PyStr.contains no_saved_config (snd p) = true) outs ->
    script w = (flat_map attempt_answers outs ++ rest)%list ->
    startup_config_loop (length outs) w
    = (Ok tt, logged (flat_map (fun _ => failed_attempt w) outs) rest w).
Proof.
  induction outs as [|p outs IH]; intros rest w Hall Hs.
  - simpl in Hs. cbn [length flat_map startup_config_loop].
    rewrite <- Hs. now rewrite logged_nil.
  - inversion Hall as [|p' outs' Hp Hrest]; subst.
    cbn [length flat_map]. cbn [flat_map attempt_answers app] in Hs.
    rewrite (startup_loop_turn _ _ _ _ _ _ _ Hs Hp).
    rewrite (IH rest _ Hrest (script_logged _ _ _)).
    rewrite logged_logged. reflexivity.
Qed.

Lemma copy_count_app l a :
  copy_count (l ++ [a]) = copy_count l + (if is_copy a then 1 else 0).
Proof.
  unfold copy_count. rewrite filter_app, length_app. simpl.
  now destruct (is_copy a).
Qed.

Lemma call_shell_copy_count sh command w :
  copy_count (log (snd (call_shell sh command w)))
  = copy_count (log w)
    + (if is_copy (ACommand sh command true [prompt_of sh w] (timeout_of sh w))
       then 1 else 0).
Proof.
  destruct w as [st sc lg sp stt vp vt rs].
  destruct sc as [|[i b|b|i|] rest]; unfold call_shell; chan_unfold; cbn;
    apply copy_count_app.
Qed.

Lemma startup_loop_bounded n :
  forall w,
    copy_count (log (snd (startup_config_loop n w))) <= copy_count (log w) + n.
Proof.
  induction n as [|n IH]; intros w; cbn [startup_config_loop].
  - simpl. lia.
  - pose proof (call_shell_copy_count Vtysh
                  "copy running-config startup-config" w) as H1.
    unfold bind at 1. revert H1.
    destruct (call_shell Vtysh "copy running-config startup-config" w)
      as [[c|e|] w1]; intros H1; simpl in H1; simpl; try lia.
    pose proof (call_shell_copy_count Vtysh "show startup-config" w1) as H2.
    unfold bind at 1. revert H2.
    destruct (call_shell Vtysh "show startup-config" w1)
      as [[out|e|] w2]; intros H2; simpl in H2; simpl; try lia.
    destruct (negb (PyStr.contains no_saved_config out)); simpl; [lia|].
    unfold bind at 1, sleep, record.
    match goal with
    | |- context [startup_config_loop n ?w3] =>
        specialize (IH w3);
        assert (E : copy_count (log w3) = copy_count (log w2))
          by (simpl; rewrite copy_count_app; simpl; lia)
    end.
    lia.
Qed.

End StartupConfig.

Section StartupMore.
Import Api Openswitch.

Lemma startup_loop_found outs :
  forall k i copy_out j show_out rest w,
    Forall (fun p => PyStr.contains no_saved_config (snd p) = true) outs ->
    PyStr.contains no_saved_config show_out = false ->
    script w = (flat_map attempt_answers outs
                ++ Match i copy_out :: Match j show_out :: rest)%list ->
    startup_config_loop (length outs + S k) w
    = (Ok tt,
       logged (flat_map (fun _ => failed_attempt w) outs
               ++ [copy_command w; show_command w]) rest w).
Proof.
  induction outs as [|p outs IH];
    intros k i copy_out j show_out rest w Hall Hgood Hs.
  - simpl in Hs. destruct w as [st sc lg sp stt vp vt rs]. simpl in Hs.
    subst sc. cbn [length flat_map Nat.add app startup_config_loop].
    unfold logged, copy_command, show_command. chan_unfold.
    rewrite Hgood. cbn. rewrite <- app_assoc. reflexivity.
  - inversion Hall as [|p' outs' Hp Hrest]; subst.
    cbn [length flat_map Nat.add]. cbn [flat_map attempt_answers app] in Hs.
    rewrite (startup_loop_turn _ _ _ _ _ _ _ Hs Hp).
    rewrite (IH k i copy_out j show_out rest _ Hrest Hgood
               (script_logged _ _ _)).
    rewrite logged_logged. rewrite <- app_assoc. reflexivity.
Qed.

Lemma startup_loop_copy_raises outs :
  forall k before rest w,
    Forall (fun p => PyStr.contains no_saved_config (snd p) = true) outs ->
    script w = (flat_map attempt_answers outs ++ Raise before :: rest)%list ->
    startup_config_loop (length outs + S k) w
    = (Exc ChannelError,
       logged (flat_map (fun _ => failed_attempt w) outs ++ [copy_command w])
              rest w).
Proof.
  induction outs as [|p outs IH]; intros k before rest w Hall Hs.
  - simpl in Hs. destruct w as [st sc lg sp stt vp vt rs]. simpl in Hs.
    subst sc. reflexivity.
  - inversion Hall as [|p' outs' Hp Hrest]; subst.
    cbn [length flat_map Nat.add]. cbn [flat_map attempt_answers app] in Hs.
    rewrite (startup_loop_turn _ _ _ _ _ _ _ Hs Hp).
    rewrite (IH k before rest _ Hrest (script_logged _ _ _)).
    rewrite logged_logged. rewrite <- app_assoc. reflexivity.
Qed.

End StartupMore.

(** C7: the last stage issues the copy of the running configuration and the
    check for a startup configuration at most 15 times.  It stops at the
    first check that no longer reports a missing configuration, without a
    sleep after it.  When all 15 checks still report that no configuration
    is saved, with one second of sleep after each, the stage disconnects
    and returns normally, raising nothing. *)
Theorem startup_config_gives_up_quietly :
  (forall outs rest (w : world),
      length outs = 15 ->
      Forall (fun p => PyStr.contains Openswitch.no_saved_config (snd p) = true)
             outs ->
      script w = (flat_map attempt_answers outs ++ rest)%list ->
      Openswitch._create_startup_config w
      = (Ok tt,
         logged (flat_map (fun _ => failed_attempt w) outs
                 ++ [ADisconnect Vtysh]) rest w))
  /\ (forall w : world,
        copy_count (log (snd (Openswitch._create_startup_config w)))
        <= copy_count (log w) + 15)
  /\ (forall outs i copy_out j show_out rest (w : world),
        length outs < 15 ->
        Forall (fun p =>
                  PyStr.contains Openswitch.no_saved_config (snd p) = true)
               outs ->
        PyStr.contains Openswitch.no_saved_config show_out = false ->
        script w = (flat_map attempt_answers outs
                    ++ Match i copy_out :: Match j show_out :: rest)%list ->
        Openswitch._create_startup_config w
        = (Ok tt,
           logged (flat_map (fun _ => failed_attempt w) outs
                   ++ [copy_command w; show_command w; ADisconnect Vtysh])
                  rest w)).
Proof.
  split; [|split].
  - intros outs rest w Hlen Hall Hs.
    unfold Openswitch._create_startup_config. rewrite <- Hlen.
    rewrite (bind_ok _ _ _ _ _ (startup_loop_exhausted outs rest w Hall Hs)).
    rewrite <- (logged_logged _ rest [ADisconnect Vtysh] rest w).
    reflexivity.
  - intros w. unfold Openswitch._create_startup_config.
    pose proof (startup_loop_bounded 15 w) as H. unfold bind.
    destruct (Openswitch.startup_config_loop 15 w) as [[[]|e|] w1];
      simpl in *; try lia.
    rewrite copy_count_app. simpl. lia.
  - intros outs i copy_out j show_out rest w Hlen Hall Hgood Hs.
    unfold Openswitch._create_startup_config.
    replace 15 with (length outs + S (15 - S (length outs))) by lia.
    rewrite (bind_ok _ _ _ _ _
               (startup_loop_found outs _ i copy_out j show_out rest w
                  Hall Hgood Hs)).
    change (Api.disconnect Vtysh) with (record (ADisconnect Vtysh)).
    match goal with
    | |- record ?a (logged ?l ?r ?w0) = _ =>
        change (record a (logged l r w0))
          with (Ok tt, logged [a] r (logged l r w0))
    end.
    rewrite logged_logged. rewrite <- app_assoc. reflexivity.
Qed.

Lemma startup_config_gives_up_quietly_witness :
  let outs := repeat ("", "No saved configuration exists.") 15 in
  let w := demo_world (flat_map attempt_answers outs) in
  Openswitch._create_startup_config w
  = (Ok tt,
     logged (flat_map (fun _ => failed_attempt w) outs ++ [ADisconnect Vtysh])
            [] w).
Proof.
  intros outs w.
  apply (proj1 startup_config_gives_up_quietly outs [] w).
  - reflexivity.
  - repeat constructor.
  - vm_compute. reflexivity.
Defined.

(** A whole burn in which the startup configuration never appears: the
    workflow still returns normally. *)
Example burn_succeeds_without_startup_config :
  fst (Openswitch._burn_image demo_node
         (demo_world
            (answers_until_installer
             ++ [Match 0 "Installation finished. No error reported.";
                 Match 0 ""; Match 0 "login: "]
             ++ flat_map attempt_answers
                  (repeat ("", "No saved configuration exists.") 15))))
  = Ok tt.
Proof. vm_compute. reflexivity. Qed.

(** * Further properties of the code *)

(** ** The handshake engine as a whole *)

(** X1: in a shell whose pre-setup hook does nothing and that declares a
    user, a first wait that raises ends the handshake with that exception:
    the wait is the only call made, nothing is sent. *)
Theorem handshake_timeout_sends_nothing :
  forall (self : Shell.ConnectPExpectShell) user before rest (w : world),
    Shell._pre_setup_shell self = Shell.no_hook ->
    Shell._connect_user self = Some user ->
    script w = Raise before :: rest ->
    Shell._setup_shell self w
    = (Exc ChannelError, logged [user_race_wait self] rest w).
Proof.
  intros self user before rest w Hpre Hu Hs.
  destruct w as [st sc lg sp stt vp vt rs]. simpl in Hs. subst sc.
  unfold Shell._setup_shell, Shell.user_race. rewrite Hpre, Hu.
  reflexivity.
Qed.

Lemma handshake_timeout_sends_nothing_witness :
  let w := demo_world [Raise "Connection refused"] in
  Shell._setup_shell demo_vty_shell w
  = (Exc ChannelError, logged [user_race_wait demo_vty_shell] [] w).
Proof.
  cbv zeta.
  apply (handshake_timeout_sends_nothing demo_vty_shell "admin"
           "Connection refused" []); reflexivity.
Defined.

(** X2: in a shell without hooks that declares a user, a password and an
    initial command, a user prompt followed by a password prompt gives the
    full login: the user name is sent, then the password, and after one
    more wait for the initial prompt the initial command. *)
Theorem handshake_user_then_password :
  forall (self : Shell.ConnectPExpectShell) user password command
         b1 b2 index b3 rest (w : world),
    Shell._pre_setup_shell self = Shell.no_hook ->
    Shell._post_setup_shell self = Shell.no_hook ->
    Shell._connect_user self = Some user ->
    Shell._connect_password self = Some password ->
    Shell._connect_initial_command self = Some command ->
    script w = Match 0 b1 :: Match 0 b2 :: Match index b3 :: rest ->
    Shell._setup_shell self w
    = (Ok tt,
       logged [user_race_wait self; ASendline (Some user);
               password_race_wait self; ASendline (Some password);
               initial_command_wait self; ASendline (Some command)] rest w).
Proof.
  intros self user password command b1 b2 index b3 rest w
         Hpre Hpost Hu Hp Hc Hs.
  destruct w as [st sc lg sp stt vp vt rs]. simpl in Hs. subst sc.
  unfold Shell._setup_shell, Shell.user_race, Shell.password_race,
    Shell.initial_command.
  rewrite Hpre, Hpost, Hu, Hp, Hc.
  unfold logged, user_race_wait, password_race_wait, initial_command_wait,
    Shell.no_hook.
  chan_unfold. cbn. rewrite <- !app_assoc. reflexivity.
Qed.

Lemma handshake_user_then_password_witness :
  let w := demo_world [Match 0 "User: "; Match 0 "Password: ";
                       Match 0 "admin@sw:~# "] in
  Shell._setup_shell demo_vty_shell w
  = (Ok tt,
     logged [user_race_wait demo_vty_shell; ASendline (Some "admin");
             password_race_wait demo_vty_shell; ASendline (Some "secret");
             initial_command_wait demo_vty_shell; ASendline (Some "vtysh")]
            [] w).
Proof.
  cbv zeta.
  apply (handshake_user_then_password demo_vty_shell "admin" "secret" "vtysh"
           "User: " "Password: " 0 "admin@sw:~# " []); reflexivity.
Defined.

(** ** The serial shell *)

(** X3: the serial pre-setup sleeps for the pre-connect time, probes the
    console with a bare ['\n\r'], and sends [reboot] exactly when the ONIE
    prompt answered the probe; it then sleeps for the bootup time. *)
Theorem serial_pre_setup_reboots_only_from_onie :
  forall (self : Shell.OpenswitchSerialShell) index before rest (w : world),
    script w = Match index before :: rest ->
    ~ In (ASendline (Some "reboot")) (log w) ->
    let r := Shell.serial_pre_setup_shell self w in
    fst r = Ok tt
    /\ firstn 2 (skipn (length (log w)) (log (snd r)))
       = [ASleep (Shell._pre_connect_timeout self); console_probe self]
    /\ (In (ASendline (Some "reboot")) (log (snd r)) <-> index = 1)
    /\ (index = 1 ->
        log (snd r)
        = (log w ++ [ASleep (Shell._pre_connect_timeout self);
                     console_probe self; ASendline (Some "reboot");
                     ASleep (Shell._bootup_timeout self)])%list).
Proof.
  intros self index before rest w Hs Hno.
  destruct w as [st sc lg sp stt vp vt rs]. simpl in Hs, Hno. subst sc.
  assert (Hskip : forall tl : list action,
             skipn (length lg) (lg ++ tl) = tl).
  { intros tl. rewrite skipn_app, skipn_all, Nat.sub_diag. reflexivity. }
  unfold Shell.serial_pre_setup_shell, console_probe.
  destruct index as [|[|[|[|n]]]]; chan_unfold; cbn;
    rewrite <- ?app_assoc; cbn [app]; rewrite Hskip;
    (split; [reflexivity|]); (split; [reflexivity|]); split.
  all: try (intros E; discriminate E).
  all: try reflexivity.
  all: split; intros H; try discriminate H; try reflexivity.
  all: try (apply in_app_or in H; destruct H as [H|H];
            [contradiction
            |simpl in H;
             repeat (destruct H as [H|H]; [discriminate H|]);
             contradiction]).
  apply in_or_app. right. simpl. auto.
Qed.

Lemma serial_pre_setup_reboots_only_from_onie_witness :
  let w := demo_world [Match 1 "ONIE:/ # "] in
  log (snd (Shell.serial_pre_setup_shell demo_serial_shell w))
  = (log w ++ [ASleep 5; console_probe demo_serial_shell;
               ASendline (Some "reboot"); ASleep 60])%list.
Proof.
  cbv zeta.
  apply (serial_pre_setup_reboots_only_from_onie demo_serial_shell 1
           "ONIE:/ # " []).
  - reflexivity.
  - simpl. tauto.
  - reflexivity.
Defined.

(** X4: [disconnect] on the serial shell closes the connection exactly when
    the session is alive and no closing command is configured.  In every
    other case it ends in a [NameError] and leaves the world untouched: a
    dead session trips over the name [AlreadyDisconnectedError], which the
    module does not import. *)
Theorem serial_disconnect_closes_iff :
  forall (self : Shell.OpenswitchSerialShell) (alive : bool) (w : world),
    let r := Shell.serial_disconnect self alive w in
    (fst r = Ok tt
     <-> alive = true /\ Shell._serial_closing_commands self = [])
    /\ (fst r = Ok tt -> snd r = set_log (log w ++ [AClose]) w)
    /\ (alive = false ->
        r = (Exc (NameError "AlreadyDisconnectedError"), w))
    /\ (fst r <> Ok tt -> snd r = w).
Proof.
  intros self alive w. unfold Shell.serial_disconnect.
  destruct alive; destruct (Shell._serial_closing_commands self) as [|c cs];
    cbn; repeat split; intros; try discriminate; try reflexivity;
    try tauto.
  all: match goal with
       | H : _ /\ _ |- _ => destruct H; discriminate
       | H : Ok tt <> Ok tt |- _ => contradiction H; reflexivity
       end.
Qed.

Lemma serial_disconnect_closes_iff_witness :
  let w := demo_world [] in
  Shell.serial_disconnect demo_serial_shell false w
  = (Exc (NameError "AlreadyDisconnectedError"), w).
Proof.
  cbv zeta.
  apply (proj1 (proj2 (proj2 (serial_disconnect_closes_iff
                                demo_serial_shell false (demo_world []))))).
  reflexivity.
Defined.

(** ** The SSH parameters *)

Section SshInit.
Import ShellInit.

Lemma isabs_app a b : isabs a = true -> isabs (a ++ b) = true.
Proof. destruct a; [discriminate|auto]. Qed.

Lemma isabs_not_empty s : isabs s = true -> s <> "".
Proof. destruct s; [discriminate|discriminate]. Qed.

Lemma join_relative a b :
  isabs b = false ->
  join a b = b \/ join a b = (a ++ b)%string
  \/ join a b = (a ++ "/" ++ b)%string.
Proof.
  intros H. unfold join. rewrite H.
  destruct a as [|x a]; [now left|].
  destruct (endswith_slash (String x a)); [right; now left|right; now right].
Qed.

Lemma join_absolute a b :
  isabs a = true -> isabs b = false -> isabs (join a b) = true.
Proof.
  intros Ha Hb. unfold join. rewrite Hb.
  destruct a as [|x a]; [discriminate|].
  destruct (endswith_slash (String x a)); now apply isabs_app.
Qed.

Lemma join_not_empty a b : a <> "" \/ b <> "" -> join a b <> "".
Proof.
  intros H. unfold join. destruct (isabs b) eqn:E.
  - now apply isabs_not_empty.
  - destruct a as [|x a].
    + destruct H as [H|H]; [contradiction|assumption].
    + destruct (endswith_slash (String x a)); discriminate.
Qed.

Lemma normalize_not_empty env f g :
  ssh_dir env <> "" \/ f <> "" ->
  normalize_identity env (Some f) = Some g -> g <> "".
Proof.
  intros H E. unfold normalize_identity in E.
  destruct (isabs f) eqn:Hf; cbn in E; injection E as <-.
  - now apply isabs_not_empty.
  - now apply join_not_empty.
Qed.

Lemma truthy_not_empty g : g <> "" -> Transport.truthy (Some g) = true.
Proof. destruct g; [contradiction|reflexivity]. Qed.

End SshInit.

(** X5: when the user's SSH directory is an absolute path, an identity file
    that the constructor keeps is an absolute path: an absolute one is kept
    as given, a relative one is joined under the SSH directory (right
    after it when the directory ends in a slash, after one added slash
    otherwise); and running the same step on the result changes nothing. *)
Theorem ssh_identity_file_is_absolute :
  forall (env : ShellInit.Env) (f g : string),
    ShellInit.isabs (ShellInit.ssh_dir env) = true ->
    ShellInit.normalize_identity env (Some f) = Some g ->
    ShellInit.isabs g = true
    /\ (ShellInit.isabs f = true -> g = f)
    /\ (ShellInit.isabs f = false ->
        g = ShellInit.join (ShellInit.ssh_dir env) f)
    /\ (ShellInit.isabs f = false ->
        ShellInit.endswith_slash (ShellInit.ssh_dir env) = true ->
        g = (ShellInit.ssh_dir env ++ f)%string)
    /\ (ShellInit.isabs f = false ->
        ShellInit.endswith_slash (ShellInit.ssh_dir env) = false ->
        g = (ShellInit.ssh_dir env ++ "/" ++ f)%string)
    /\ ShellInit.normalize_identity env (Some g) = Some g.
Proof.
  intros env f g Hd E. unfold ShellInit.normalize_identity in E.
  assert (Hg : ShellInit.isabs g = true).
  { destruct (ShellInit.isabs f) eqn:Hf; cbn in E; injection E as <-.
    - exact Hf.
    - now apply join_absolute. }
  assert (Hj : ShellInit.isabs f = false ->
               g = ShellInit.join (ShellInit.ssh_dir env) f).
  { intros Hf. rewrite Hf in E. cbn in E. now injection E as <-. }
  split; [exact Hg|]. split; [|split; [exact Hj|split; [|split]]].
  - intros Hf. rewrite Hf in E. cbn in E. now injection E as <-.
  - intros Hf Hs. rewrite (Hj Hf). unfold ShellInit.join. rewrite Hf.
    destruct (ShellInit.ssh_dir env) as [|x d]; [discriminate Hd|].
    now rewrite Hs.
  - intros Hf Hs. rewrite (Hj Hf). unfold ShellInit.join. rewrite Hf.
    destruct (ShellInit.ssh_dir env) as [|x d]; [discriminate Hd|].
    now rewrite Hs.
  - unfold ShellInit.normalize_identity. now rewrite Hg.
Qed.

Lemma ssh_identity_file_is_absolute_witness :
  ShellInit.isabs "/home/tester/.ssh/id_rsa" = true
  /\ ShellInit.normalize_identity demo_env
       (Some "/home/tester/.ssh/id_rsa")
     = Some "/home/tester/.ssh/id_rsa".
Proof.
  pose proof (ssh_identity_file_is_absolute demo_env "id_rsa"
                "/home/tester/.ssh/id_rsa" eq_refl eq_refl) as H.
  exact (conj (proj1 H) (proj2 (proj2 (proj2 (proj2 (proj2 H)))))).
Defined.

(** X6: with a non-empty SSH directory, the command built from the
    constructor's result carries no [-i] flag exactly when [identity_file]
    was passed as [None]; leaving the argument out does not switch key
    authentication off. *)
Theorem ssh_identity_flag_off_iff_none :
  forall (env : ShellInit.Env) (kw : ShellInit.SshKwargs),
    ShellInit.ssh_dir env <> "" ->
    (identity_flag (ShellInit.ssh_init env kw) = ""
     <-> ShellInit.kw_identity_file kw = Some None).
Proof.
  intros env kw Hd. unfold identity_flag, ShellInit.ssh_init.
  cbn [Transport._identity_file].
  destruct (ShellInit.kw_identity_file kw) as [[f|]|].
  - destruct (ShellInit.normalize_identity env (Some f)) as [g|] eqn:E.
    + pose proof (normalize_not_empty env f g (or_introl Hd) E) as Hg.
      rewrite (truthy_not_empty g Hg). split; discriminate.
    + unfold ShellInit.normalize_identity in E.
      destruct (negb (ShellInit.isabs f)); discriminate.
  - cbn. split; reflexivity.
  - destruct (ShellInit.normalize_identity env (Some "id_rsa")) as [g|] eqn:E.
    + pose proof (normalize_not_empty env "id_rsa" g (or_introl Hd) E) as Hg.
      rewrite (truthy_not_empty g Hg). split; discriminate.
    + discriminate.
Qed.

Lemma ssh_identity_flag_off_iff_none_witness :
  identity_flag (ShellInit.ssh_init demo_env no_kwargs) = ""
  <-> ShellInit.kw_identity_file no_kwargs = Some None.
Proof.
  apply (ssh_identity_flag_off_iff_none demo_env no_kwargs). discriminate.
Defined.


(** X7: constructed without any keyword argument, the SSH shell connects as
    the user running the process to 127.0.0.1 port 22, with the key
    [id_rsa] of the SSH directory and batch mode on. *)
Theorem ssh_default_command :
  forall env : ShellInit.Env,
    Transport.ssh_get_connect_command (ShellInit.ssh_init env no_kwargs)
    = "ssh " ++ ShellInit.pw_name env ++ "@127.0.0.1 -p 22 -i "
        ++ ShellInit.join (ShellInit.ssh_dir env) "id_rsa"
        ++ " -o BatchMode=yes".
Proof.
  intros env.
  assert (T : Transport.truthy
                (Some (ShellInit.join (ShellInit.ssh_dir env) "id_rsa")) = true).
  { apply truthy_not_empty. apply join_not_empty. right. discriminate. }
  unfold Transport.ssh_get_connect_command.
  change (Transport._identity_file (ShellInit.ssh_init env no_kwargs))
    with (Some (ShellInit.join (ShellInit.ssh_dir env) "id_rsa")).
  rewrite T.
  reflexivity.
Qed.

(** ** Interfaces *)

Section PortProps.
Import Ports.

Lemma split_without_separator c s :
  has_char c s = false -> split c s = [s].
Proof.
  induction s as [|a rest IH]; intros H; [reflexivity|].
  cbn [has_char] in H. apply Bool.orb_false_iff in H as [Ha Hr].
  cbn [split]. rewrite Ha, (IH Hr). reflexivity.
Qed.

Lemma vtysh_call_logged command acts rest w :
  vtysh_call command (logged acts rest w) = vtysh_call command w.
Proof. reflexivity. Qed.

(** A vtysh command that is answered. *)
Lemma call_vtysh_answered command index out rest w :
  script w = Match index out :: rest ->
  Api.call_shell Vtysh command w
  = (Ok out, logged [vtysh_call command w] rest w).
Proof.
  intros Hs. destruct w as [st sc lg sp stt vp vt rs]. simpl in Hs.
  subst sc. reflexivity.
Qed.

(** A vtysh command whose wait raises. *)
Lemma call_vtysh_raised command before rest w :
  script w = Raise before :: rest ->
  Api.call_shell Vtysh command w
  = (Exc ChannelError, logged [vtysh_call command w] rest w).
Proof.
  intros Hs. destruct w as [st sc lg sp stt vp vt rs]. simpl in Hs.
  subst sc. reflexivity.
Qed.

Lemma sleep_logged n w :
  Api.sleep n w = (Ok tt, logged [ASleep n] (script w) w).
Proof. destruct w as [st sc lg sp stt vp vt rs]. reflexivity. Qed.

Lemma poll_turn real_label k index out rest w :
  script w = Match index out :: rest ->
  PyStr.contains "Admin state is up" out = false ->
  port_poll_loop real_label (S k) w
  = port_poll_loop real_label k (logged (failed_poll real_label w) rest w).
Proof.
  intros Hs Hc. cbn [port_poll_loop].
  rewrite (bind_ok _ _ _ _ _ (call_vtysh_answered _ _ _ _ _ Hs)).
  rewrite Hc. unfold failed_poll.
  rewrite (bind_ok _ _ _ _ _ (sleep_logged 1 _)).
  rewrite script_logged, logged_logged. reflexivity.
Qed.

Lemma poll_exhausted real_label outs :
  forall rest w,
    Forall (fun o => PyStr.contains "Admin state is up" o = false) outs ->
    script w = (map (Match 0) outs ++ rest)%list ->
    port_poll_loop real_label (length outs) w
    = (Ok false,
       logged (flat_map (fun _ => failed_poll real_label w) outs) rest w).
Proof.
  induction outs as [|o outs IH]; intros rest w Hall Hs.
  - simpl in Hs. cbn [length flat_map port_poll_loop].
    rewrite <- Hs. now rewrite logged_nil.
  - inversion Hall as [|o' outs' Ho Hrest]; subst.
    cbn [length flat_map]. cbn [map app] in Hs.
    rewrite (poll_turn _ _ _ _ _ _ Hs Ho).
    rewrite (IH rest _ Hrest (script_logged _ _ _)).
    rewrite logged_logged. reflexivity.
Qed.

Lemma poll_found real_label outs :
  forall k index out rest w,
    Forall (fun o => PyStr.contains "Admin state is up" o = false) outs ->
    PyStr.contains "Admin state is up" out = true ->
    script w = (map (Match 0) outs ++ Match index out :: rest)%list ->
    port_poll_loop real_label (length outs + S k) w
    = (Ok true,
       logged (flat_map (fun _ => failed_poll real_label w) outs
               ++ [vtysh_call ("show interface " ++ real_label) w]) rest w).
Proof.
  induction outs as [|o outs IH]; intros k index out rest w Hall Hup Hs.
  - simpl in Hs. cbn [length flat_map Nat.add app port_poll_loop].
    rewrite (bind_ok _ _ _ _ _ (call_vtysh_answered _ _ _ _ _ Hs)).
    now rewrite Hup.
  - inversion Hall as [|o' outs' Ho Hrest]; subst.
    cbn [length flat_map Nat.add]. cbn [map app] in Hs.
    rewrite (poll_turn _ _ _ _ _ _ Hs Ho).
    rewrite (IH k index out rest _ Hrest Hup (script_logged _ _ _)).
    rewrite logged_logged. rewrite <- app_assoc. reflexivity.
Qed.

End PortProps.

(** X8: the default label of a port is computed from the port's identifier
    before the metadata is looked at, so a port whose identifier has no
    dash ends the interface lookup in [IndexError] whatever label its
    metadata carries and whatever interfaces the node declares. *)
Theorem interface_lookup_needs_dash :
  forall (self : Ports.PortNode) (biport : Ports.Biport),
    has_char "-" (Ports.biport_identifier biport) = false ->
    Ports._get_interface_config self biport = inl Ports.IndexError.
Proof.
  intros self biport H. unfold Ports._get_interface_config.
  rewrite (split_without_separator _ _ H). reflexivity.
Qed.

Lemma interface_lookup_needs_dash_witness :
  Ports._get_interface_config demo_port_node
    {| Ports.metadata_label := Some "if01";
       Ports.biport_identifier := "if01" |}
  = inl Ports.IndexError.
Proof.
  apply (interface_lookup_needs_dash demo_port_node). reflexivity.
Defined.

(** X9: what the interface lookup returns is what the node declares: the
    configuration is the one stored under the label, the label is the one
    of the metadata when there is one and the second dash-separated part of
    the identifier otherwise, and the real label is the declared [name] or,
    without one, the label itself. *)
Theorem interface_lookup_sound :
  forall (self : Ports.PortNode) (biport : Ports.Biport) cfg real_label label,
    Ports._get_interface_config self biport = inr (cfg, real_label, label) ->
    (exists attrs, Ports._intf_attrs self = Some attrs
                   /\ Ports.lookup label attrs = Some cfg)
    /\ (Ports.metadata_label biport = Some label
        \/ (Ports.metadata_label biport = None
            /\ nth_error (Ports.split "-" (Ports.biport_identifier biport)) 1
               = Some label))
    /\ real_label = match Ports.intf_name cfg with
                    | Some n => n
                    | None => label
                    end.
Proof.
  intros self biport cfg real_label label H.
  unfold Ports._get_interface_config in H.
  destruct (nth_error _ 1) as [d|] eqn:Hd; [|discriminate].
  destruct (Ports._intf_attrs self) as [attrs|]; [|discriminate].
  destruct (Ports.lookup _ attrs) as [c|] eqn:Hl; [|discriminate].
  injection H as <- <- <-. split; [|split].
  - exists attrs. split; [reflexivity|exact Hl].
  - destruct (Ports.metadata_label biport); [left|right]; auto.
  - reflexivity.
Qed.

Lemma interface_lookup_sound_witness :
  Ports._get_interface_config demo_port_node demo_biport
  = inr (demo_intf, "7", "if01")
  /\ exists attrs, Ports._intf_attrs demo_port_node = Some attrs
                   /\ Ports.lookup "if01" attrs = Some demo_intf.
Proof.
  split; [reflexivity|].
  exact (proj1 (interface_lookup_sound demo_port_node demo_biport
                  demo_intf "7" "if01" eq_refl)).
Defined.

(** X10: when the interface already reports up, [bring_port_up] issues the
    one [show interface] command and nothing else: no configuration mode is
    entered. *)
Theorem bring_port_up_leaves_up_port_alone :
  forall (self : Ports.PortNode) (biport : Ports.Biport) cfg real_label label
         index out rest (w : world),
    Ports._get_interface_config self biport = inr (cfg, real_label, label) ->
    script w = Match index out :: rest ->
    PyStr.contains ("Interface " ++ real_label ++ " is up") out = true ->
    Ports.bring_port_up self biport w
    = (inr (Ok real_label),
       logged [vtysh_call ("show interface " ++ real_label) w] rest w).
Proof.
  intros self biport cfg real_label label index out rest w Hl Hs Hup.
  unfold Ports.bring_port_up. rewrite Hl. unfold Ports.port_up_commands.
  rewrite (bind_ok _ _ _ _ _ (call_vtysh_answered _ _ _ _ _ Hs)).
  rewrite Hup. reflexivity.
Qed.

Lemma bring_port_up_leaves_up_port_alone_witness :
  let w := demo_world [Match 0 "Interface 7 is up"] in
  Ports.bring_port_up demo_port_node demo_biport w
  = (inr (Ok "7"), logged [vtysh_call "show interface 7" w] [] w).
Proof.
  cbv zeta.
  apply (bring_port_up_leaves_up_port_alone demo_port_node demo_biport
           demo_intf "7" "if01" 0 "Interface 7 is up" []); reflexivity.
Defined.

(** X11: when the interface does not report up and every command is
    answered, [bring_port_up] enters configuration mode and the interface,
    sets the speed only when one is declared, issues [no shutdown], and
    leaves both levels again with two [exit]s. *)
Theorem bring_port_up_configures_down_port :
  forall (self : Ports.PortNode) (biport : Ports.Biport) cfg real_label label
         index out outs rest (w : world),
    Ports._get_interface_config self biport = inr (cfg, real_label, label) ->
    script w = (Match index out :: map (Match 0) outs ++ rest)%list ->
    length outs = length (config_commands cfg real_label) ->
    PyStr.contains ("Interface " ++ real_label ++ " is up") out = false ->
    Ports.bring_port_up self biport w
    = (inr (Ok real_label),
       logged (map (fun c => vtysh_call c w)
                   (("show interface " ++ real_label)%string
                      :: config_commands cfg real_label)) rest w).
Proof.
  intros self biport cfg real_label label index out outs rest w
         Hl Hs Hlen Hup.
  unfold Ports.bring_port_up. rewrite Hl.
  unfold Ports.port_up_commands, config_commands in *.
  destruct w as [st sc lg sp stt vp vt rs]. simpl in Hs. subst sc.
  destruct (Ports.intf_speed cfg) as [speed|];
    cbn [app length] in Hlen;
    repeat match goal with
           | H : length ?o = S _ |- _ =>
               is_var o; destruct o as [|? ?]; cbn [length] in H;
               [discriminate H | apply eq_add_S in H]
           | H : length ?o = O |- _ =>
               is_var o; destruct o; [clear H | discriminate H]
           end;
    unfold logged, vtysh_call; chan_unfold; rewrite Hup; cbn;
    rewrite <- !app_assoc; reflexivity.
Qed.

Lemma bring_port_up_configures_down_port_witness :
  let w := demo_world (Match 0 "Interface 7 is down"
                       :: map (Match 0) (repeat "" 6)) in
  Ports.bring_port_up demo_port_node demo_biport w
  = (inr (Ok "7"),
     logged (map (fun c => vtysh_call c w)
                 ["show interface 7"; "config"; "interface 7"; "speed 10000";
                  "no shutdown"; "exit"; "exit"]) [] w).
Proof.
  cbv zeta.
  apply (bring_port_up_configures_down_port demo_port_node demo_biport
           demo_intf "7" "if01" 0 "Interface 7 is down" (repeat "" 6) []);
    reflexivity.
Defined.

(** X12: [wait_port_becomes_up] polls the interface once a second, as many
    times as the interface's timeout says (30 when none is declared); when
    no poll shows the admin state up it fails with the assertion, after that
    many polls and sleeps.  With a timeout of 0 it fails without a single
    command. *)
Theorem wait_port_gives_up_with_error :
  forall (self : Ports.PortNode) (biport : Ports.Biport) cfg real_label label
         outs rest (w : world),
    Ports._get_interface_config self biport = inr (cfg, real_label, label) ->
    length outs = poll_limit cfg ->
    Forall (fun o => PyStr.contains "Admin state is up" o = false) outs ->
    script w = (map (Match 0) outs ++ rest)%list ->
    Ports.wait_port_becomes_up self biport w
    = (inr (Exc (AssertionError
                   (Ports.port_down_message self label real_label))),
       logged (flat_map (fun _ => failed_poll real_label w) outs) rest w).
Proof.
  intros self biport cfg real_label label outs rest w Hl Hlen Hall Hs.
  unfold Ports.wait_port_becomes_up. rewrite Hl. unfold Ports.port_wait.
  fold (poll_limit cfg). rewrite <- Hlen.
  rewrite (bind_ok _ _ _ _ _ (poll_exhausted real_label outs rest w Hall Hs)).
  reflexivity.
Qed.

Lemma wait_port_gives_up_with_error_witness :
  let w := demo_world (map (Match 0) (repeat "Admin state is down" 3)) in
  Ports.wait_port_becomes_up demo_port_node demo_biport w
  = (inr (Exc (AssertionError
                 (Ports.port_down_message demo_port_node "if01" "7"))),
     logged (flat_map (fun _ => failed_poll "7" w)
                      (repeat "Admin state is down" 3)) [] w).
Proof.
  cbv zeta.
  apply (wait_port_gives_up_with_error demo_port_node demo_biport demo_intf
           "7" "if01" (repeat "Admin state is down" 3) []).
  - reflexivity.
  - reflexivity.
  - repeat constructor.
  - reflexivity.
Defined.

(** X13: when a poll within the timeout shows the admin state up,
    [wait_port_becomes_up] returns normally right after that poll: one
    sleep was taken after each earlier poll and none after the last. *)
Theorem wait_port_returns_when_up :
  forall (self : Ports.PortNode) (biport : Ports.Biport) cfg real_label label
         outs index out rest (w : world),
    Ports._get_interface_config self biport = inr (cfg, real_label, label) ->
    length outs < poll_limit cfg ->
    Forall (fun o => PyStr.contains "Admin state is up" o = false) outs ->
    PyStr.contains "Admin state is up" out = true ->
    script w = (map (Match 0) outs ++ Match index out :: rest)%list ->
    Ports.wait_port_becomes_up self biport w
    = (inr (Ok tt),
       logged (flat_map (fun _ => failed_poll real_label w) outs
               ++ [vtysh_call ("show interface " ++ real_label) w]) rest w).
Proof.
  intros self biport cfg real_label label outs index out rest w
         Hl Hlen Hall Hup Hs.
  unfold Ports.wait_port_becomes_up. rewrite Hl. unfold Ports.port_wait.
  fold (poll_limit cfg).
  replace (poll_limit cfg)
    with (length outs + S (poll_limit cfg - S (length outs))) by lia.
  rewrite (bind_ok _ _ _ _ _
             (poll_found real_label outs _ index out rest w Hall Hup Hs)).
  reflexivity.
Qed.

Lemma wait_port_returns_when_up_witness :
  let w := demo_world [Match 0 "Admin state is down";
                       Match 0 "Admin state is up"] in
  Ports.wait_port_becomes_up demo_port_node demo_biport w
  = (inr (Ok tt),
     logged (flat_map (fun _ => failed_poll "7" w) ["Admin state is down"]
             ++ [vtysh_call "show interface 7" w]) [] w).
Proof.
  cbv zeta.
  apply (wait_port_returns_when_up demo_port_node demo_biport demo_intf
           "7" "if01" ["Admin state is down"] 0 "Admin state is up" []).
  - reflexivity.
  - vm_compute. lia.
  - repeat constructor.
  - reflexivity.
  - reflexivity.
Defined.

(** X14: [rollback] never runs the reboot command: it leaves the world as
    it found it, returning normally when no command is configured and
    ending in [NameError] for [printf] when one is. *)
Theorem rollback_never_reboots :
  forall (self : Openswitch.OpenswitchNode) (w : world),
    snd (Ports.rollback self w) = w
    /\ (Openswitch._reboot_command self = None ->
        fst (Ports.rollback self w) = Ok tt)
    /\ (Openswitch._reboot_command self <> None ->
        fst (Ports.rollback self w) = Exc (NameError "printf")).
Proof.
  intros self w. unfold Ports.rollback, Openswitch._reboot_switch.
  destruct (Openswitch._reboot_command self) as [c|]; cbn.
  - split; [reflexivity|]. split; [intros H; discriminate H|].
    intros _. reflexivity.
  - split; [reflexivity|]. split; [intros _; reflexivity|].
    intros H. contradiction H. reflexivity.
Qed.

Lemma rollback_never_reboots_witness :
  Openswitch._reboot_command demo_node <> None
  /\ fst (Ports.rollback demo_node (demo_world [])) = Exc (NameError "printf").
Proof.
  split; [discriminate|].
  apply (proj2 (proj2 (rollback_never_reboots demo_node (demo_world [])))).
  discriminate.
Defined.

(** X15: [_load_image_attrs] on an image block without a server block ends
    in [AttributeError].  With a server block it succeeds: the path, the
    image user and the server's address and user are taken over unchanged,
    and each of the two passwords is [None] when it was declared empty or
    not declared, and the declared password otherwise; what is loaded never
    holds an empty password. *)
Theorem load_image_attrs_blanks_passwords :
  forall image : Ports.ImageBlock,
    (Ports.image_server image = None ->
     Ports._load_image_attrs image = inl (AttributeError "get"))
    /\ (forall server,
          Ports.image_server image = Some server ->
          exists l,
            Ports._load_image_attrs image = inr l
            /\ Ports._image_path l = Ports.image_path image
            /\ Ports._image_user l = Ports.image_user image
            /\ Ports._image_server_ip l = Ports.server_IP server
            /\ Ports._image_server_user l = Ports.server_user server
            /\ (Ports.image_password image = Some "" ->
                Ports._image_password l = None)
            /\ (Ports.image_password image = None ->
                Ports._image_password l = None)
            /\ (forall p, p <> "" -> Ports.image_password image = Some p ->
                  Ports._image_password l = Some p)
            /\ (Ports.server_password server = Some "" ->
                Ports._image_server_password l = None)
            /\ (Ports.server_password server = None ->
                Ports._image_server_password l = None)
            /\ (forall p, p <> "" -> Ports.server_password server = Some p ->
                  Ports._image_server_password l = Some p)
            /\ Ports._image_password l <> Some ""
            /\ Ports._image_server_password l <> Some "")
    /\ ((exists l, Ports._load_image_attrs image = inr l)
        <-> Ports.image_server image <> None).
Proof.
  intros image. unfold Ports._load_image_attrs.
  assert (B : forall x, Ports.blank_to_none x <> Some "").
  { intros [s|]; cbn; [|discriminate].
    destruct s; cbn; discriminate. }
  assert (K : forall x p, p <> "" -> x = Some p ->
                Ports.blank_to_none x = Some p).
  { intros x p Hp ->. cbn. destruct p; [contradiction|reflexivity]. }
  assert (E : forall x, x = Some "" -> Ports.blank_to_none x = None).
  { intros x ->. reflexivity. }
  assert (N : forall x, x = None -> Ports.blank_to_none x = None).
  { intros x ->. reflexivity. }
  destruct (Ports.image_server image) as [server|]; split; [|split| |split].
  - intros H. discriminate H.
  - intros server' H. injection H as <-. eexists. split; [reflexivity|].
    cbn. repeat split; try apply B; try apply E; try apply N;
      try (intros; now apply K).
  - split; [discriminate|]. intros _. eexists. reflexivity.
  - intros _. reflexivity.
  - intros server H. discriminate H.
  - split; [intros [l H]; discriminate H|]. intros H. contradiction H.
    reflexivity.
Qed.

Lemma load_image_attrs_blanks_passwords_witness :
  exists l,
    Ports._load_image_attrs demo_image_block = inr l
    /\ Ports._image_password l = None
    /\ Ports._image_server_password l = Some "labpw".
Proof.
  destruct (proj1 (proj2 (load_image_attrs_blanks_passwords demo_image_block))
              demo_server_block eq_refl)
    as (l & Hl & _ & _ & _ & _ & He & _ & _ & _ & _ & Hs & _).
  exists l. split; [exact Hl|]. split.
  - apply He. reflexivity.
  - apply (Hs "labpw"); [discriminate|reflexivity].
Defined.

(** ** Stages of the workflow *)

Lemma erase_ok w w' :
  Openswitch._erase_startup_config w = (Ok tt, w') ->
  vtysh_prompt w' = vtysh_prompt w /\ serial_timeout w' = serial_timeout w.
Proof.
  intros H. destruct w as [st sc lg sp stt vp vt rs].
  unfold Openswitch._erase_startup_config in H.
  destruct sc as [|[i1 b1|b1|i1|] [|[i2 b2|b2|i2|] [|[i3 b3|b3|i3|] tl]]];
    try discriminate H; injection H as <-; split; reflexivity.
Qed.

(** X16: [_erase_startup_config] puts the vtysh prompt back only when the
    erase command is answered: a normal return leaves the prompt as it was
    before the call, while an erase command whose wait raises leaves the
    confirmation prompt in place and the vtysh session connected. *)
Theorem erase_restores_prompt_on_success_only :
  (forall w w' : world,
      Openswitch._erase_startup_config w = (Ok tt, w') ->
      vtysh_prompt w' = vtysh_prompt w)
  /\ (forall index b before rest (w : world),
        script w = Match index b :: Raise before :: rest ->
        Openswitch._erase_startup_config w
        = (Exc ChannelError,
           logged [AConnect Vtysh;
                   ACommand Vtysh "erase startup-config" true
                            [erase_confirmation] (vtysh_timeout w)]
                  rest (set_prompt Vtysh erase_confirmation w))).
Proof.
  split.
  - intros w w' H. exact (proj1 (erase_ok w w' H)).
  - intros index b before rest w Hs.
    destruct w as [st sc lg sp stt vp vt rs]. simpl in Hs. subst sc.
    unfold Openswitch._erase_startup_config, logged, erase_confirmation.
    chan_unfold. rewrite <- app_assoc. reflexivity.
Qed.

Lemma erase_restores_prompt_on_success_only_witness :
  let w := demo_world [Match 0 ""; Raise "erase startup-config"] in
  vtysh_prompt (snd (Openswitch._erase_startup_config w)) = erase_confirmation.
Proof.
  cbv zeta.
  rewrite (proj2 erase_restores_prompt_on_success_only 0 ""
             "erase startup-config" []
             (demo_world [Match 0 ""; Raise "erase startup-config"]) eq_refl).
  reflexivity.
Defined.


(** X17: [_create_startup_config] stops at the first check that no longer
    reports a missing configuration: after that check it takes no sleep and
    issues no further copy, it disconnects and returns. *)
Theorem startup_config_stops_when_saved :
  forall outs i copy_out j show_out rest (w : world),
    length outs < 15 ->
    Forall (fun p => PyStr.contains Openswitch.no_saved_config (snd p) = true)
           outs ->
    PyStr.contains Openswitch.no_saved_config show_out = false ->
    script w = (flat_map attempt_answers outs
                ++ Match i copy_out :: Match j show_out :: rest)%list ->
    Openswitch._create_startup_config w
    = (Ok tt,
       logged (flat_map (fun _ => failed_attempt w) outs
               ++ [copy_command w; show_command w; ADisconnect Vtysh])
              rest w).
Proof.
  intros outs i copy_out j show_out rest w Hlen Hall Hgood Hs.
  unfold Openswitch._create_startup_config.
  replace 15 with (length outs + S (15 - S (length outs))) by lia.
  rewrite (bind_ok _ _ _ _ _
             (startup_loop_found outs _ i copy_out j show_out rest w
                Hall Hgood Hs)).
  change (Api.disconnect Vtysh) with (record (ADisconnect Vtysh)).
  match goal with
  | |- record ?a (logged ?l ?r ?w0) = _ =>
      change (record a (logged l r w0))
        with (Ok tt, logged [a] r (logged l r w0))
  end.
  rewrite logged_logged. rewrite <- app_assoc. reflexivity.
Qed.

Lemma startup_config_stops_when_saved_witness :
  let w := demo_world [Match 0 ""; Match 0 "No saved configuration exists";
                       Match 0 ""; Match 0 "hostname switch"] in
  Openswitch._create_startup_config w
  = (Ok tt,
     logged (flat_map (fun _ => failed_attempt w)
                      [("", "No saved configuration exists")]
             ++ [copy_command w; show_command w; ADisconnect Vtysh]) [] w).
Proof.
  cbv zeta.
  apply (startup_config_stops_when_saved
           [("", "No saved configuration exists")] 0 "" 0 "hostname switch" []).
  - vm_compute. lia.
  - repeat constructor.
  - reflexivity.
  - reflexivity.
Defined.

(** X18: giving up quietly is for the exhausted bound only.  A copy command
    whose wait raises, on any of the 15 attempts, ends
    [_create_startup_config] with that exception, and the vtysh session is
    not disconnected. *)
Theorem startup_config_wait_failure_is_fatal :
  forall outs before rest (w : world),
    length outs < 15 ->
    Forall (fun p => PyStr.contains Openswitch.no_saved_config (snd p) = true)
           outs ->
    script w = (flat_map attempt_answers outs ++ Raise before :: rest)%list ->
    Openswitch._create_startup_config w
    = (Exc ChannelError,
       logged (flat_map (fun _ => failed_attempt w) outs ++ [copy_command w])
              rest w).
Proof.
  intros outs before rest w Hlen Hall Hs.
  unfold Openswitch._create_startup_config.
  replace 15 with (length outs + S (15 - S (length outs))) by lia.
  now rewrite (bind_exc _ _ _ _ _
                 (startup_loop_copy_raises outs _ before rest w Hall Hs)).
Qed.

Lemma startup_config_wait_failure_is_fatal_witness :
  let w := demo_world [Raise "connection lost"] in
  Openswitch._create_startup_config w
  = (Exc ChannelError, logged ([] ++ [copy_command w]) [] w).
Proof.
  cbv zeta.
  apply (startup_config_wait_failure_is_fatal [] "connection lost" []).
  - vm_compute. lia.
  - constructor.
  - reflexivity.
Defined.

(** X19: the download check passes exactly when the answer to the exit
    status query is the one character [0]; any other answer ends the stage
    with an assertion whose message carries the text of the download, and
    the query is the last thing sent. *)
Theorem verify_download_wants_exactly_zero :
  forall (self : Openswitch.OpenswitchNode) message index rc rest (w : world),
    script w = Match index rc :: rest ->
    let r := Openswitch.verify_download self message w in
    snd r = logged [exit_status_query w] rest
              (set_prompt Serial Openswitch._serial_onie_prompt w)
    /\ (fst r = Ok tt <-> rc = "0")
    /\ (rc <> "0" ->
        fst r = Exc (AssertionError
                       ("Switch '" ++ Openswitch.identifier self
                          ++ "': Failed to download image: '"
                          ++ message ++ "'"))).
Proof.
  intros self message index rc rest w Hs.
  destruct w as [st sc lg sp stt vp vt rs]. simpl in Hs. subst sc.
  unfold Openswitch.verify_download, Openswitch.assert, exit_status_query,
    logged.
  chan_unfold.
  destruct (String.eqb_spec "0" rc) as [E|NE]; cbn [fst snd].
  - split; [reflexivity|]. split; [split; auto|].
    intros H. contradiction H. now symmetry.
  - split; [reflexivity|]. split; [|reflexivity].
    split; [discriminate|]. intros E. contradiction NE. now symmetry.
Qed.

Lemma verify_download_wants_exactly_zero_witness :
  let w := demo_world [Match 0 "1"] in
  fst (Openswitch.verify_download demo_node "ops.bin 100%" w)
  = Exc (AssertionError
           "Switch 'sw1': Failed to download image: 'ops.bin 100%'").
Proof.
  cbv zeta.
  apply (proj2 (proj2 (verify_download_wants_exactly_zero demo_node
                         "ops.bin 100%" 0 "1" []
                         (demo_world [Match 0 "1"]) eq_refl))).
  discriminate.
Defined.

(** ** More on the registry and the download *)

Lemma NoDup_snoc {A} (l : list A) (x : A) :
  NoDup l -> ~ In x l -> NoDup (l ++ [x]).
Proof.
  induction l as [|a l IH]; intros Hn Hx; simpl.
  - constructor; [intros []|constructor].
  - inversion Hn as [|a' l' Ha Hl]; subst. constructor.
    + intros Hin. apply in_app_or in Hin as [Hin|[Hin|[]]];
        [contradiction|]. subst. apply Hx. now left.
    + apply IH; [assumption|]. intros Hin. apply Hx. now right.
Qed.

Lemma burn_image_no_duplicates self w :
  NoDup (image_load_status w) ->
  NoDup (image_load_status (snd (Openswitch._burn_image self w))).
Proof.
  intros Hn. destruct (Openswitch._image_attrs self) as [img|] eqn:Hi.
  - destruct (Openswitch.registered (Openswitch._IP self)
                (image_load_status w)) eqn:Hr.
    + now rewrite burn_image_skips.
    + rewrite (burn_image_status self img w Hi Hr).
      apply NoDup_snoc; [assumption|].
      intros Hin. apply registered_In in Hin. congruence.
  - unfold Openswitch._burn_image. now rewrite Hi.
Qed.

(** X20: the registry never holds an IP twice: if it has no duplicates
    before, it has none after a burn, and none after any sequence of device
    constructions, whatever their outcomes. *)
Theorem registry_has_no_duplicates :
  forall (nodes : list Openswitch.OpenswitchNode) (w : world),
    NoDup (image_load_status w) ->
    NoDup (image_load_status (Openswitch.burn_all nodes w)).
Proof.
  induction nodes as [|n rest IH]; intros w Hn; [assumption|].
  cbn [Openswitch.burn_all].
  pose proof (burn_image_no_duplicates n w Hn) as H.
  destruct (Openswitch._burn_image n w) as [[[]|e|] w']; simpl in H;
    [now apply IH | now apply IH | assumption].
Qed.

Lemma registry_has_no_duplicates_witness :
  NoDup (image_load_status
           (Openswitch.burn_all [demo_node; demo_node]
              (demo_world [Raise ""; Raise ""]))).
Proof.
  apply (registry_has_no_duplicates [demo_node; demo_node]).
  simpl. constructor.
Defined.

(** X21: while it waits for the download the workflow writes nothing to the
    channel: all the loop adds to the log is waits for the rescue prompt,
    at least one and at most one more than the answers it was given. *)
Theorem download_loop_only_waits :
  forall (self : Openswitch.OpenswitchNode) (img : Openswitch.ImageAttrs)
         answers out (w : world),
    exists n,
      1 <= n <= S (length answers)
      /\ log (snd (Openswitch.download_loop self img out answers w))
         = (log w ++ repeat (download_wait w) n)%list.
Proof.
  intros self img answers. induction answers as [|a rest IH]; intros out w.
  - exists 1. split; [simpl; lia|reflexivity].
  - destruct a as [index before|before|index|];
      try (exists 1; split; [simpl; lia|reflexivity]).
    destruct (String.eqb_spec (fragment before) out) as [E|NE].
    + rewrite download_loop_stalled by exact E.
      exists 1. split; [simpl; lia|reflexivity].
    + rewrite download_loop_resumes by exact NE.
      destruct (IH (fragment before) (logged [download_wait w] rest w))
        as (n & Hn & Hlog).
      exists (S n). split; [simpl; lia|].
      rewrite Hlog. cbn [repeat]. unfold logged. cbn [log set_script set_log].
      rewrite <- app_assoc. reflexivity.
Qed.

(** X22: the fragment the stall check compares is the text after the last
    carriage return of the output, and the whole output when it has none;
    it never contains a carriage return itself. *)
Theorem fragment_is_text_after_last_cr :
  forall message : string,
    has_char PyStr.CR (fragment message) = false
    /\ ((has_char PyStr.CR message = false /\ fragment message = message)
        \/ exists before,
             message = (before ++ String PyStr.CR (fragment message))%string).
Proof.
  intros message. unfold fragment.
  destruct (after_last_spec PyStr.CR message) as [[Hn He]|(p & Hs & Hn)].
  - split; [now rewrite He|]. left. split; assumption.
  - split; [assumption|]. right. exists p. exact Hs.
Qed.

(** X23: the installer is run on the bare file name of the image: the part
    of the declared path after its last slash, the whole path when it has
    none. *)
Theorem installer_runs_bare_file_name :
  forall img : Openswitch.ImageAttrs,
    exists file_name,
      Openswitch.installer_command img = ("sh " ++ file_name)%string
      /\ has_char "/" file_name = false
      /\ (Openswitch._image_path img = file_name
          \/ exists dir,
               Openswitch._image_path img
               = (dir ++ String "/" file_name)%string).
Proof.
  intros img. exists (PyStr.after_last "/" (Openswitch._image_path img)).
  split; [reflexivity|].
  destruct (after_last_spec "/" (Openswitch._image_path img))
    as [[Hn He]|(p & Hs & Hn)].
  - split; [now rewrite He|]. left. now rewrite He.
  - split; [assumption|]. right. exists p. exact Hs.
Qed.

(** X24: a node with an image block but no serial block fails the burn with
    [TypeError] before anything is sent, and its IP is in the registry all
    the same. *)
Theorem burn_without_serial_block :
  forall (self : Openswitch.OpenswitchNode) img (w : world),
    Openswitch._image_attrs self = Some img ->
    Openswitch._serial_attrs self = None ->
    Openswitch.registered (Openswitch._IP self) (image_load_status w) = false ->
    Openswitch._burn_image self w
    = (Exc TypeError,
       set_status (image_load_status w ++ [Openswitch._IP self])%list w).
Proof.
  intros self img w Hi Hs Hr.
  rewrite (burn_image_registers_first self img w Hi Hr).
  unfold Openswitch.burn_until_downloaded, Openswitch.establish_serial.
  rewrite Hs. reflexivity.
Qed.

Lemma burn_without_serial_block_witness :
  Openswitch._burn_image demo_node_without_serial (demo_world [])
  = (Exc TypeError, set_status ([] ++ ["10.0.0.2"])%list (demo_world [])).
Proof.
  exact (burn_without_serial_block demo_node_without_serial demo_image
           (demo_world []) eq_refl eq_refl eq_refl).
Defined.

(** ** What a successful burn leaves behind *)

Lemma bind_ok_inv {A B} (m : M A) (k : A -> M B) w b w' :
  bind m k w = (Ok b, w') ->
  exists a w1, m w = (Ok a, w1) /\ k a w1 = (Ok b, w').
Proof.
  unfold bind. destruct (m w) as [[a|e|] w1]; intros H; try discriminate H.
  now exists a, w1.
Qed.

Lemma ok_keeps_ret {A X} (f : world -> X) (a : A) : ok_keeps f (ret a).
Proof. intros w a' w' H. now injection H as _ <-. Qed.

Lemma ok_keeps_raise {A X} (f : world -> X) e : ok_keeps f (@raise A e).
Proof. intros w a w' H. discriminate H. Qed.

Lemma ok_keeps_bind {A B X} (f : world -> X) (m : M A) (k : A -> M B) :
  ok_keeps f m -> (forall a, ok_keeps f (k a)) -> ok_keeps f (bind m k).
Proof.
  intros Hm Hk w b w' H.
  apply bind_ok_inv in H as (a & w1 & H1 & H2).
  rewrite (Hk a _ _ _ H2). exact (Hm _ _ _ H1).
Qed.

Lemma ok_keeps_frame {A X} (f : world -> X) (m : M A) :
  (forall w, f (snd (m w)) = f w) -> ok_keeps f m.
Proof. intros Hf w a w' H. specialize (Hf w). now rewrite H in Hf. Qed.

Section OkKeeps.
Import Api Openswitch.
Context {X : Type} (f : world -> X).
Hypothesis f_log : forall l w, f (set_log l w) = f w.
Hypothesis f_script : forall s w, f (set_script s w) = f w.
Hypothesis f_serial_prompt : forall p w, f (set_prompt Serial p w) = f w.

Lemma okk_record a : ok_keeps f (record a).
Proof. apply ok_keeps_frame. intros w. apply f_log. Qed.

Lemma okk_await : ok_keeps f await.
Proof.
  apply ok_keeps_frame. intros w. unfold await.
  destruct (script w); [reflexivity|apply f_script].
Qed.

Lemma okk_get_prompt sh : ok_keeps f (get_prompt sh).
Proof. apply ok_keeps_frame. reflexivity. Qed.

Lemma okk_get_timeout sh : ok_keeps f (get_timeout sh).
Proof. apply ok_keeps_frame. reflexivity. Qed.

Lemma okk_put_serial_prompt p : ok_keeps f (put_prompt Serial p).
Proof. apply ok_keeps_frame. intros w. apply f_serial_prompt. Qed.

Lemma okk_reboot_status :
  ok_keeps f (fun w : world => (Ok (reboot_status w), w)).
Proof. apply ok_keeps_frame. reflexivity. Qed.

(** Break a computation into its operations; what is not one of the plain
    operations is looked for among the hypotheses. *)
Ltac okk :=
  repeat first
    [ apply ok_keeps_ret | apply ok_keeps_raise | apply okk_record
    | apply okk_await | apply okk_get_prompt | apply okk_get_timeout
    | apply okk_put_serial_prompt | apply okk_reboot_status
    | match goal with H : _ |- _ => solve [apply H] end
    | apply ok_keeps_bind; [|intros]
    | match goal with
      | |- ok_keeps _ (match ?x with _ => _ end) => destruct x
      end ].

Lemma frame_connect sh w : f (snd (connect sh w)) = f w.
Proof.
  unfold connect, bind, record, await. cbn [fst snd].
  destruct (script (set_log (log w ++ [AConnect sh]) w))
    as [|[i b|b|i|] rest];
    cbn; rewrite ?f_script, ?f_log; reflexivity.
Qed.

Lemma okk_connect sh : ok_keeps f (connect sh).
Proof. apply ok_keeps_frame. apply frame_connect. Qed.

Lemma okk_call_shell sh c : ok_keeps f (call_shell sh c).
Proof. unfold call_shell. okk. Qed.

Lemma okk_call_serial c : ok_keeps f (call_serial c).
Proof. unfold call_serial. okk. Qed.

Lemma okk_reply_contains needle out : ok_keeps f (reply_contains needle out).
Proof. unfold reply_contains. okk. Qed.

Lemma okk_send_command sh c nl : ok_keeps f (send_command sh c nl).
Proof. unfold send_command, send_command_matching. okk. Qed.

Lemma okk_reboot_switch self : ok_keeps f (_reboot_switch self).
Proof. unfold _reboot_switch, printf, call, sleep. okk. Qed.

Lemma okk_establish_serial self : ok_keeps f (establish_serial self).
Proof.
  unfold establish_serial. destruct (_serial_attrs self) as [attrs|];
    [|apply ok_keeps_raise].
  apply ok_keeps_bind; [apply okk_put_serial_prompt|]. intros _.
  intros w a w' H. unfold try_except in H.
  pose proof (frame_connect Serial w) as Hc.
  destruct (connect Serial w) as [[[]|e|] w1]; cbn in Hc.
  - injection H as H. subst w'. exact Hc.
  - rewrite <- Hc.
    assert (K : ok_keeps f (_reboot_switch self ;; connect Serial)).
    { pose proof okk_reboot_switch. pose proof okk_connect. okk. }
    exact (K _ _ _ H).
  - discriminate H.
Qed.

Lemma okk_download_loop self img answers :
  forall out w a w',
    download_loop self img out answers w = (Ok a, w') -> f w' = f w.
Proof.
  induction answers as [|r rest IH]; intros out w a w' H.
  - discriminate H.
  - destruct r as [i b|b|i|]; cbn [download_loop] in H;
      try discriminate H.
    + injection H as _ <-. now rewrite f_script, f_log.
    + destruct (negb _); [|discriminate H].
      rewrite (IH _ _ _ _ H). now rewrite f_script, f_log.
Qed.

Lemma okk_download_image self img : ok_keeps f (download_image self img).
Proof.
  unfold download_image, sendline.
  pose proof okk_call_serial.
  assert (ok_keeps f (wait_for_download self img))
    by (intros w a w' H'; exact (okk_download_loop _ _ _ _ _ _ _ H')).
  okk.
Qed.

Lemma okk_verify_download self message :
  ok_keeps f (verify_download self message).
Proof. unfold verify_download, assert. pose proof okk_call_serial. okk. Qed.

Lemma okk_run_installer self img : ok_keeps f (run_installer self img).
Proof.
  unfold run_installer, assert.
  pose proof okk_call_serial. pose proof okk_reply_contains. okk.
Qed.

Lemma okk_startup_loop n : ok_keeps f (startup_config_loop n).
Proof.
  induction n as [|n IH]; cbn [startup_config_loop]; unfold sleep.
  - okk.
  - pose proof okk_call_shell. okk.
Qed.

Lemma okk_settle self : ok_keeps f (settle_and_restore self).
Proof.
  unfold settle_and_restore, _create_startup_config, sleep, disconnect.
  pose proof okk_startup_loop. okk.
Qed.

End OkKeeps.

Section BurnSettings.
Import Api Openswitch.

Lemma reboot_to_bootloader_ok self w t w' :
  reboot_to_bootloader self w = (Ok t, w') ->
  t = serial_timeout w
  /\ serial_timeout w' = serial_timeout w
  /\ vtysh_prompt w' = vtysh_prompt w.
Proof.
  intros H. destruct w as [st sc lg sp stt vp vt rs].
  unfold reboot_to_bootloader in H.
  destruct (negb (Z.eqb 0 (_bootloader_bootup_timeout self)));
    destruct sc as [|[i1 b1|b1|i1|] tl]; try discriminate H;
    injection H as <- <-; repeat split.
Qed.

Lemma reboot_to_production_ok self w w' :
  reboot_to_production self w = (Ok tt, w') ->
  serial_timeout w' = serial_timeout w /\ vtysh_prompt w' = vtysh_prompt w.
Proof.
  intros H. destruct w as [st sc lg sp stt vp vt rs].
  unfold reboot_to_production in H.
  destruct (negb (Z.eqb 0 (_bootloader_bootup_timeout self)));
    destruct sc as [|[i1 b1|b1|i1|] [|[i2 b2|b2|i2|] tl]];
    try discriminate H;
    injection H as <-; split; reflexivity.
Qed.

Lemma okk_put_timeout_prompt sh t : ok_keeps vtysh_prompt (put_timeout sh t).
Proof. apply ok_keeps_frame. intros w. destruct sh; reflexivity. Qed.

Lemma select_rescue_keeps_prompt temp :
  ok_keeps vtysh_prompt (select_rescue temp).
Proof.
  unfold select_rescue, sleep.
  pose proof (okk_send_command vtysh_prompt
                (fun _ _ => eq_refl) (fun _ _ => eq_refl)) as Hsend.
  pose proof okk_put_timeout_prompt as Hput.
  repeat first
    [ apply Hsend | apply Hput
    | apply (okk_put_serial_prompt vtysh_prompt (fun _ _ => eq_refl))
    | apply (okk_record vtysh_prompt (fun _ _ => eq_refl))
    | apply ok_keeps_bind; [|intros] ].
Qed.

Lemma ok_sets_skip {A B} t (m : M A) (k : A -> M B) :
  (forall a, ok_sets_timeout t (k a)) -> ok_sets_timeout t (bind m k).
Proof.
  intros Hk w b w' H. apply bind_ok_inv in H as (a & w1 & _ & H2).
  exact (Hk a _ _ _ H2).
Qed.

Lemma ok_sets_here {B} t (k : unit -> M B) :
  (forall a, ok_keeps serial_timeout (k a)) ->
  ok_sets_timeout t (bind (put_timeout Serial t) k).
Proof.
  intros Hk w b w' H. apply bind_ok_inv in H as (a & w1 & H1 & H2).
  rewrite (Hk a _ _ _ H2). injection H1 as _ <-. reflexivity.
Qed.

Lemma select_rescue_sets_timeout temp :
  ok_sets_timeout temp (select_rescue temp).
Proof.
  unfold select_rescue.
  do 14 (apply ok_sets_skip; intros _).
  apply ok_sets_here. intros _.
  apply ok_keeps_bind; [|intros _].
  - apply (okk_put_serial_prompt serial_timeout (fun _ _ => eq_refl)).
  - apply (okk_send_command serial_timeout
             (fun _ _ => eq_refl) (fun _ _ => eq_refl)).
Qed.

End BurnSettings.

Section BurnOutcome.
Import Api Openswitch.

Lemma until_downloaded_keeps_prompt self img :
  ok_keeps vtysh_prompt (burn_until_downloaded self img).
Proof.
  unfold burn_until_downloaded.
  apply ok_keeps_bind; [apply okk_establish_serial; intros; reflexivity|].
  intros _. apply ok_keeps_bind.
  { intros w [] w' H. exact (proj1 (erase_ok w w' H)). }
  intros _. apply ok_keeps_bind.
  { intros w t w' H. exact (proj2 (proj2 (reboot_to_bootloader_ok _ _ _ _ H))). }
  intros temp. apply ok_keeps_bind; [apply select_rescue_keeps_prompt|].
  intros _. apply ok_keeps_bind;
    [apply okk_download_image; intros; reflexivity|].
  intros message. apply okk_verify_download; intros; reflexivity.
Qed.

Lemma until_downloaded_keeps_timeout self img :
  ok_keeps serial_timeout (burn_until_downloaded self img).
Proof.
  intros w a w' H. unfold burn_until_downloaded in H.
  apply bind_ok_inv in H as ([] & w1 & H1 & H).
  apply bind_ok_inv in H as ([] & w2 & H2 & H).
  apply bind_ok_inv in H as (temp & w3 & H3 & H).
  apply bind_ok_inv in H as ([] & w4 & H4 & H).
  apply bind_ok_inv in H as (message & w5 & H5 & H6).
  apply (okk_establish_serial serial_timeout) in H1;
    try (intros; reflexivity).
  apply erase_ok in H2 as [_ H2].
  apply reboot_to_bootloader_ok in H3 as (Ht & H3 & _).
  apply select_rescue_sets_timeout in H4.
  apply (okk_download_image serial_timeout) in H5;
    try (intros; reflexivity).
  apply (okk_verify_download serial_timeout) in H6;
    try (intros; reflexivity).
  congruence.
Qed.

Lemma from_installer_keeps self img :
  ok_keeps serial_timeout (burn_from_installer self img)
  /\ ok_keeps vtysh_prompt (burn_from_installer self img).
Proof.
  unfold burn_from_installer. split.
  - apply ok_keeps_bind; [apply okk_run_installer; intros; reflexivity|].
    intros _. apply ok_keeps_bind.
    { intros w [] w' H. exact (proj1 (reboot_to_production_ok _ _ _ H)). }
    intros _. apply okk_settle; intros; reflexivity.
  - apply ok_keeps_bind; [apply okk_run_installer; intros; reflexivity|].
    intros _. apply ok_keeps_bind.
    { intros w [] w' H. exact (proj2 (reboot_to_production_ok _ _ _ H)). }
    intros _. apply okk_settle; intros; reflexivity.
Qed.

End BurnOutcome.

(** X25: a burn that returns normally, skipped or run to the end, leaves
    the serial shell's timeout and the vtysh shell's prompt as they were
    before it: every override made on the way (the boot menu timeout, the
    180 seconds for the rescue console, the erase confirmation prompt) has
    been undone. *)
Theorem successful_burn_restores_settings :
  forall (self : Openswitch.OpenswitchNode) (w w' : world),
    Openswitch._burn_image self w = (Ok tt, w') ->
    serial_timeout w' = serial_timeout w
    /\ vtysh_prompt w' = vtysh_prompt w.
Proof.
  intros self w w' H.
  destruct (Openswitch._image_attrs self) as [img|] eqn:Hi.
  - destruct (Openswitch.registered (Openswitch._IP self)
                (image_load_status w)) eqn:Hr.
    + rewrite burn_image_skips in H by assumption.
      injection H as <-. split; reflexivity.
    + rewrite (burn_image_registers_first self img w Hi Hr) in H.
      apply bind_ok_inv in H as ([] & w1 & H1 & H2).
      destruct (from_installer_keeps self img) as [Kt Kp].
      split.
      * rewrite (Kt _ _ _ H2).
        now rewrite (until_downloaded_keeps_timeout self img _ _ _ H1).
      * rewrite (Kp _ _ _ H2).
        now rewrite (until_downloaded_keeps_prompt self img _ _ _ H1).
  - unfold Openswitch._burn_image in H. rewrite Hi in H.
    injection H as <-. split; reflexivity.
Qed.

Lemma successful_burn_restores_settings_witness :
  let w := demo_world
             (answers_until_installer
              ++ [Match 0 "Installation finished. No error reported.";
                  Match 0 ""; Match 0 "login: "; Match 0 "";
                  Match 0 "hostname switch"]) in
  serial_timeout (snd (Openswitch._burn_image demo_node w)) = serial_timeout w
  /\ vtysh_prompt (snd (Openswitch._burn_image demo_node w)) = vtysh_prompt w.
Proof.
  intros w.
  apply (successful_burn_restores_settings demo_node w).
  vm_compute. reflexivity.
Defined.

(** X26: the 180 seconds set for the rescue console are undone only when
    the console answers: when that wait raises, [select_rescue] ends with
    the exception and the serial shell's timeout is left at 180. *)
Theorem rescue_console_timeout_sticks_on_failure :
  forall temp befores before rest (w : world),
    length befores = 5 ->
    script w = (map (Match 0) befores ++ Raise before :: rest)%list ->
    fst (Openswitch.select_rescue temp w) = Exc ChannelError
    /\ serial_timeout (snd (Openswitch.select_rescue temp w)) = 180%Z
    /\ script (snd (Openswitch.select_rescue temp w)) = rest.
Proof.
  intros temp befores before rest w Hlen Hs.
  destruct w as [st sc lg sp stt vp vt rs]. simpl in Hs. subst sc.
  repeat match goal with
         | H : length ?o = S _ |- _ =>
             is_var o; destruct o as [|? ?]; cbn [length] in H;
             [discriminate H | apply eq_add_S in H]
         | H : length ?o = O |- _ =>
             is_var o; destruct o; [clear H | discriminate H]
         end.
  repeat split.
Qed.

Lemma rescue_console_timeout_sticks_on_failure_witness :
  serial_timeout
    (snd (Openswitch.select_rescue 30
            (demo_world (map (Match 0) (repeat "" 5) ++ [Raise ""]))))
  = 180%Z.
Proof.
  apply (proj1 (proj2 (rescue_console_timeout_sticks_on_failure 30
                         (repeat "" 5) "" []
                         (demo_world (map (Match 0) (repeat "" 5)
                                      ++ [Raise ""]))
                         eq_refl eq_refl))).
Defined.
